(** * TinyDB TypeScript client SDK: request execution and resilience layer

    A shallow embedding of [src/index.ts]: the payload codec
    ([parseCollection], [parseDocument], [jsonParser], [parseError]), the
    request executor ([TinyDB.requestInternal]), the offline queue
    ([TinyDB.flushOfflineQueue]), the collection resolver
    ([TinyDB.ensureCollection], [TinyDB.describeCollection]) and the part of
    the collection facade that deletes, purges and creates documents.

    JavaScript values are modelled dynamically, the way the code meets them
    at run time: strings are sequences of UTF-16 code units, numbers are
    IEEE-754 values, objects are insertion-ordered property lists.
    Asynchronous methods become computations over an explicit world made of
    the client's offline queue and the log of calls made to the transport. *)

From Stdlib Require Import ZArith NArith List String Ascii Bool Lia.
From Stdlib Require Import SpecFloat DecimalString.
Import ListNotations.

Set Implicit Arguments.
Set Warnings "-register-all".

(** ** Strings *)

Module JSString.

(** A JavaScript string is a sequence of 16-bit code units. *)
Definition jsstring := list N.

(** Literals of the source are ASCII. *)
Definition js (s : string) : jsstring :=
  map N_of_ascii (list_ascii_of_string s).

Fixpoint eqb (a b : jsstring) : bool :=
  match a, b with
  | [], [] => true
  | x :: a', y :: b' => (x =? y)%N && eqb a' b'
  | _, _ => false
  end.





(** [s.startsWith("/")] *)
Definition startsWithSlash (s : jsstring) : bool :=
  match s with
  | c :: _ => (c =? 47)%N
  | [] => false
  end.

(** [s.replace(/\/?$/, by)]: the first position where the pattern matches is
    the last code unit when it is a slash, and the end of the string
    otherwise. *)
Fixpoint replaceTrailingSlash (s by_ : jsstring) : jsstring :=
  match s with
  | [] => by_
  | c :: rest =>
      match rest with
      | [] => if (c =? 47)%N then by_ else c :: by_
      | _ :: _ => c :: replaceTrailingSlash rest by_
      end
  end.

(** Case folding of the [i] flag on a pattern made of ASCII letters and
    spaces: a code unit of the subject matches a letter of the pattern
    exactly when it is that letter in either case (code units above 127
    never canonicalize to an ASCII letter without the [u] flag). *)
Definition foldCase (c : N) : N :=
  if ((65 <=? c) && (c <=? 90))%N then (c + 32)%N else c.

Fixpoint matchesAt (pattern s : jsstring) : bool :=
  match pattern, s with
  | [], _ => true
  | p :: pattern', c :: s' => (foldCase p =? foldCase c)%N && matchesAt pattern' s'
  | _ :: _, [] => false
  end.

(** [new RegExp(pattern, "i").test(s)] for a literal pattern. *)
Fixpoint testIgnoreCase (pattern s : jsstring) : bool :=
  matchesAt pattern s
  || match s with
     | [] => false
     | _ :: s' => testIgnoreCase pattern s'
     end.

End JSString.
Export JSString.

(** ** Values *)

Module JSValue.

(** A JavaScript number is an IEEE-754 value. *)
Definition number := spec_float.

Definition isNaN (x : number) : bool :=
  match x with
  | S754_nan => true
  | _ => false
  end.

Definition isZero (x : number) : bool :=
  match x with
  | S754_zero _ => true
  | _ => false
  end.

(** The double 1: mantissa 2^52, exponent -52. *)
Definition one : number := S754_finite false 4503599627370496 (-52).

(** The values that JSON text, request arguments and decoded records are made
    of.  An object is the list of its own properties in insertion order; an
    array has its elements and, besides, the named properties that were
    assigned to it. *)
Inductive value : Type :=
| JUndefined
| JNull
| JBool (b : bool)
| JNum (x : number)
| JStr (s : jsstring)
| JArr (elems : list value) (props : list (jsstring * value))
| JObj (props : list (jsstring * value)).

Definition object := list (jsstring * value).

(** [Boolean(v)] *)
Definition truthy (v : value) : bool :=
  match v with
  | JUndefined | JNull => false
  | JBool b => b
  | JNum x => negb (isNaN x || isZero x)
  | JStr s => match s with [] => false | _ :: _ => true end
  | JArr _ _ | JObj _ => true
  end.

(** [typeof v === "object"] *)
Definition typeof_object (v : value) : bool :=
  match v with
  | JNull | JArr _ _ | JObj _ => true
  | _ => false
  end.

(** [typeof v === "string"] *)
Definition typeof_string (v : value) : bool :=
  match v with
  | JStr _ => true
  | _ => false
  end.

(** [v === undefined || v === null] *)
Definition nullish (v : value) : bool :=
  match v with
  | JUndefined | JNull => true
  | _ => false
  end.

(** [a ?? b] *)
Definition coalesce (a b : value) : value := if nullish a then b else a.

(** [a || b] *)
Definition or_else (a b : value) : value := if truthy a then a else b.

Fixpoint lookup {A : Type} (k : jsstring) (props : list (jsstring * A)) : option A :=
  match props with
  | [] => None
  | (k', v) :: rest => if JSString.eqb k' k then Some v else lookup k rest
  end.

(** Assignment [o[k] = v] on a property list: an existing property keeps its
    place, a new one is added last. *)
Fixpoint assign {A : Type} (k : jsstring) (v : A) (props : list (jsstring * A))
  : list (jsstring * A) :=
  match props with
  | [] => [(k, v)]
  | (k', v') :: rest =>
      if JSString.eqb k' k then (k, v) :: rest else (k', v') :: assign k v rest
  end.

(** [{ ...a, ...b }] on property lists. *)
Definition spread {A : Type} (a b : list (jsstring * A)) : list (jsstring * A) :=
  fold_left (fun acc kv => assign (fst kv) (snd kv) acc) b a.

(** [v.k] for a value that is neither [undefined] nor [null], and a key [k]
    that is a plain name (not an array index, not [length], not a name of a
    built-in prototype): the own property when there is one, [undefined]
    otherwise. *)
Definition get (v : value) (k : jsstring) : value :=
  match v with
  | JObj props | JArr _ props =>
      match lookup k props with
      | Some x => x
      | None => JUndefined
      end
  | _ => JUndefined
  end.

(** [v?.k] *)
Definition get_opt (v : value) (k : jsstring) : value :=
  if nullish v then JUndefined else get v k.

(** [v.k = x] for an object or an array [v]. *)
Definition set (v : value) (k : jsstring) (x : value) : value :=
  match v with
  | JObj props => JObj (assign k x props)
  | JArr elems props => JArr elems (assign k x props)
  | _ => v
  end.

(** An object or an array: what is of type object and is not [null]. *)
Definition objectLike (v : value) : bool :=
  match v with
  | JObj _ | JArr _ _ => true
  | _ => false
  end.

End JSValue.
Export JSValue.

(** ** HTTP messages, thrown values and queued operations *)

Module Http.

(** What a request can carry as its body: the JSON text the executor
    serialized, or a [FormData] or [Blob] passed through as it came. *)
Inductive BodyInit : Type :=
| BodyText (s : jsstring)
| BodyFormData (parts : list (jsstring * jsstring))
| BodyBlob (bytes : list N).

Record RequestInit : Type := {
  method : jsstring;
  headers : list (jsstring * jsstring);
  body : option BodyInit
}.

Record Response : Type := {
  status : Z;
  statusText : jsstring;
  text : jsstring
}.

(** [response.ok] *)
Definition ok (r : Response) : bool := ((200 <=? status r) && (status r <=? 299))%Z.

(** Values a call can throw, with [QueuedOperation] next to them because an
    [OfflineError] carries one and the parser of a queued operation can throw
    in its turn.  [Error] stands for a direct instance of [Error] and for the
    instances of its other subclasses; [Thrown] for a thrown value that is
    not an [Error] at all. *)
Inductive exn : Type :=
| TypeError (message : jsstring)
| Error (message : jsstring)
| TinyDBError (message : jsstring) (status : Z) (code : value) (details : value)
| OfflineError (message : jsstring) (operation : QueuedOperation)
| Thrown (v : value)
with QueuedOperation : Type :=
| mkQueuedOperation (url : jsstring) (init : RequestInit)
    (parser : Response -> exn + value).

Definition result (A : Type) : Type := (exn + A)%type.

Definition RequestParser := Response -> result value.

Definition url (op : QueuedOperation) : jsstring :=
  match op with mkQueuedOperation u _ _ => u end.
Definition init (op : QueuedOperation) : RequestInit :=
  match op with mkQueuedOperation _ i _ => i end.
Definition parser (op : QueuedOperation) : RequestParser :=
  match op with mkQueuedOperation _ _ p => p end.

(** A call made to the transport. *)
Definition call := (jsstring * RequestInit)%type.

(** The transport.  Its answer may depend on the calls made before, which is
    how a network that comes and goes is told. *)
Definition FetchLike := list call -> jsstring -> RequestInit -> result Response.

End Http.
Export Http.

(** ** The platform

    Library functions of the JavaScript runtime that the code calls and does
    not define.  [None] stands for the exception the function throws:
    [SyntaxError] for [JSON.parse], [TypeError] for string conversion and for
    [new URL], [URIError] for [encodeURIComponent]. *)

Class Runtime : Type := {
  JSON_parse : jsstring -> option value;
  (** [JSON.stringify(v, (_key, value) => value === undefined ? undefined : value)]
      for a [v] that is not [undefined] *)
  JSON_stringify : value -> jsstring;
  JSON_stringify_nonempty : forall v, JSON_stringify v <> [];
  (** [String(v)] *)
  ToString : value -> option jsstring;
  ToString_string : forall s, ToString (JStr s) = Some s;
  toLowerCase : jsstring -> jsstring;
  encodeURIComponent : jsstring -> option jsstring;
  URL : Type;
  new_URL : jsstring -> option URL;
  searchParams_set : URL -> jsstring -> jsstring -> URL;
  URL_toString : URL -> jsstring;
  globalThis_fetch : option FetchLike
}.

(** ** Payload codec *)

Module Codec.
Section WithRuntime.
Context {R : Runtime}.

(** [JSON.parse(v)]: the argument is converted to a string first. *)
Definition JSON_parse_value (v : value) : option value :=
  match ToString v with
  | Some s => JSON_parse s
  | None => None
  end.

Definition indexKey (n : nat) : jsstring :=
  js (NilEmpty.string_of_uint (Nat.to_uint n)).

Fixpoint indexed {A : Type} (f : A -> value) (from : nat) (l : list A) : object :=
  match l with
  | [] => []
  | x :: rest => (indexKey from, f x) :: indexed f (S from) rest
  end.

(** The own enumerable properties that [{ ...v }] copies. *)
Definition ownProperties (v : value) : object :=
  match v with
  | JObj props => props
  | JArr elems props => indexed (fun e => e) 0 elems ++ props
  | JStr s => indexed (fun c => JStr [c]) 0 s
  | _ => []
  end.

Definition cannotRead (k : jsstring) : exn :=
  TypeError (js "Cannot read properties of undefined (reading '" ++ k ++ js "')").

(** The error of reading the property [k] of [receiver], which is
    [undefined] or [null]: the message names the receiver. *)
Definition cannotReadOf (receiver : value) (k : jsstring) : exn :=
  match receiver with
  | JNull => TypeError (js "Cannot read properties of null (reading '" ++ k ++ js "')")
  | _ => cannotRead k
  end.

Definition jsonParser (res : Response) : result value :=
  if (status res =? 204)%Z then inr JUndefined
  else
    match text res with
    | [] => inr JUndefined
    | _ :: _ =>
        match JSON_parse (text res) with
        | Some v => inr v
        | None => inl (Error (js "Failed to parse JSON response"))
        end
    end.

Definition parseCollection (payload : value) : result value :=
  if nullish payload then inl (cannotReadOf payload (js "schema_json"))
  else
    let schema_json := get payload (js "schema_json") in
    let schema :=
      if truthy schema_json then
        match JSON_parse_value schema_json with
        | Some v => v
        | None => JObj [(js "_raw", schema_json)]
        end
      else JUndefined in
    inr (JObj (assign (js "schema") schema (ownProperties payload))).

Record DocumentRecord : Type := {
  id : value;
  tenant_id : value;
  collection_id : value;
  key : value;
  key_numeric : value;
  data : value;
  version : number;
  created_at : value;
  updated_at : value;
  deleted_at : value
}.

(** [data] after lines 263-273 of the source: the parsed data string, the
    raw-wrapped object when the string does not parse, and the empty object
    when there is no string or when it parses to something that is not of
    type object. *)
Definition decodeData (payload_data : value) : value :=
  let data :=
    if truthy payload_data then
      match JSON_parse_value payload_data with
      | Some v => v
      | None => JObj [(js "_raw", payload_data)]
      end
    else JObj [] in
  if negb (truthy data) || negb (typeof_object data) then JObj [] else data.

Definition parseDocument (payload : value) : result DocumentRecord :=
  if nullish payload then inl (cannotReadOf payload (js "data"))
  else
    let data := decodeData (get payload (js "data")) in
    let docId := coalesce (get data (js "_doc_id")) (get payload (js "id")) in
    let data :=
      if truthy docId && typeof_string docId
      then set data (js "_doc_id") docId
      else set data (js "_doc_id") (get payload (js "id")) in
    let version :=
      match get payload (js "version") with
      | JNum x => if negb (isNaN x) then x else one
      | _ => one
      end in
    inr {| id := get payload (js "id");
           tenant_id := get payload (js "tenant_id");
           collection_id := get payload (js "collection_id");
           key := get payload (js "key");
           key_numeric := coalesce (get payload (js "key_numeric")) JUndefined;
           data := data;
           version := version;
           created_at := get payload (js "created_at");
           updated_at := get payload (js "updated_at");
           deleted_at := coalesce (get payload (js "deleted_at")) JNull |}.

(** [stringifySchema]: [None] is [undefined]. *)
Definition stringifySchema (schema : value) : option jsstring :=
  if negb (truthy schema) then None else Some (JSON_stringify schema).

(** [buildURL]; [None] is the [TypeError] of [new URL] on a string that is
    not a URL.  [query] lists the entries of the query object. *)
Definition buildURL (base path : jsstring) (query : option (list (jsstring * option jsstring)))
  : option jsstring :=
  let trimmed := replaceTrailingSlash base [] in
  let normalized := if startsWithSlash path then path else js "/" ++ path in
  match new_URL (trimmed ++ normalized) with
  | None => None
  | Some u =>
      let u :=
        match query with
        | Some entries =>
            fold_left
              (fun u kv => match snd kv with
                           | Some v => searchParams_set u (fst kv) v
                           | None => u
                           end)
              entries u
        | None => u
        end in
      Some (URL_toString u)
  end.

Definition networkPattern (message : jsstring) : bool :=
  testIgnoreCase (js "network") message
  || testIgnoreCase (js "fetch failed") message
  || testIgnoreCase (js "Failed to fetch") message.

Definition isNetworkError (err : exn) : bool :=
  match err with
  | TypeError _ => true
  | Error message | TinyDBError message _ _ _ | OfflineError message _ =>
      match message with
      | [] => false
      | _ :: _ => networkPattern message
      end
  | Thrown _ => false
  end.

(** [parseError].  The outer result is the promise: building the error
    converts the chosen message to a string, which can throw. *)
Definition parseError (response : Response) : result exn :=
  let payload :=
    match text response with
    | [] => JUndefined
    | _ :: _ =>
        match JSON_parse (text response) with
        | Some v => v
        | None => JUndefined
        end
    end in
  let message :=
    or_else (or_else (or_else (or_else (get_opt payload (js "message"))
                                       (get_opt payload (js "error_description")))
                              (get_opt payload (js "error")))
                     (JStr (statusText response)))
            (JStr (js "Request failed")) in
  let code := or_else (get_opt payload (js "code")) (get_opt payload (js "error")) in
  match ToString message with
  | Some m => inr (TinyDBError m (status response) code payload)
  | None => inl (TypeError (js "Cannot convert object to primitive value"))
  end.

End WithRuntime.
End Codec.
Export Codec.

(** ** Asynchronous computations

    An [async] method is a function of the world it runs in: the offline
    queue of the client and the calls its transport has received so far.  It
    either resolves with a value or rejects with the thrown value. *)

Module Async.

Record World : Type := {
  offlineQueue : list QueuedOperation;
  calls : list call
}.

Definition M (A : Type) : Type := World -> result A * World.

Definition ret {A : Type} (a : A) : M A := fun w => (inr a, w).

Definition throw {A : Type} (e : exn) : M A := fun w => (inl e, w).

Definition bind {A B : Type} (m : M A) (k : A -> M B) : M B :=
  fun w =>
    match m w with
    | (inr a, w') => k a w'
    | (inl e, w') => (inl e, w')
    end.

(** [try { m } catch (error) { handler(error) }] *)
Definition try_catch {A : Type} (m : M A) (handler : exn -> M A) : M A :=
  fun w =>
    match m w with
    | (inr a, w') => (inr a, w')
    | (inl e, w') => handler e w'
    end.

(** A synchronous step that returns or throws. *)
Definition lift {A : Type} (r : result A) : M A := fun w => (r, w).

(** The world once the call has been made. *)
Definition sent (w : World) (u : jsstring) (i : RequestInit) : World :=
  {| offlineQueue := offlineQueue w; calls := calls w ++ [(u, i)] |}.

(** [await fetchImpl(url, init)] *)
Definition fetch (fetchImpl : FetchLike) (u : jsstring) (i : RequestInit) : M Response :=
  fun w => (fetchImpl (calls w) u i, sent w u i).

(** [this.offlineQueue.push(queued)] *)
Definition push (queued : QueuedOperation) : M unit :=
  fun w =>
    (inr tt,
     {| offlineQueue := offlineQueue w ++ [queued]; calls := calls w |}).

(** [this.offlineQueue.shift()] *)
Definition shift : M unit :=
  fun w =>
    (inr tt,
     {| offlineQueue := tl (offlineQueue w); calls := calls w |}).

(** [for (const x of l) { await f(x); }] *)
Fixpoint forEach {A : Type} (f : A -> M unit) (l : list A) : M unit :=
  match l with
  | [] => ret tt
  | x :: rest => bind (f x) (fun _ => forEach f rest)
  end.

(** A computation that leaves the offline queue as it found it. *)
Definition keepsQueue {A : Type} (m : M A) : Prop :=
  forall w res w', m w = (res, w') -> offlineQueue w' = offlineQueue w.

(** A computation that leaves the whole world as it found it. *)
Definition pure {A : Type} (m : M A) : Prop :=
  forall w res w', m w = (res, w') -> w' = w.

(** A computation that calls the transport once at most. *)
Definition callsOnceAtMost {A : Type} (m : M A) : Prop :=
  forall w res w', m w = (res, w') ->
  calls w' = calls w \/ exists c, calls w' = calls w ++ [c].


(** What the operations that read are: the queue is kept, and the transport
    is called once at most. *)
Definition readOnly {A : Type} (m : M A) : Prop :=
  keepsQueue m /\ callsOnceAtMost m.

End Async.
Export Async.

Declare Scope async_scope.
Delimit Scope async_scope with async.
Notation "x <- c1 ;; c2" := (bind c1 (fun x => c2))
  (at level 61, c1 at next level, right associativity) : async_scope.
Notation "c1 ;;; c2" := (bind c1 (fun _ => c2))
  (at level 61, right associativity) : async_scope.
Open Scope async_scope.

(** ** The client *)

Module TinyDBOptions.
Record t : Type := {
  endpoint : jsstring;
  apiKey : jsstring;
  appId : option jsstring;
  offlineMode : bool;
  fetch : option FetchLike
}.
End TinyDBOptions.

Module RequestOptions.

(** [options.body]: any value, a [FormData] or a [Blob]. *)
Inductive body_arg : Type :=
| Value (v : value)
| FormData (parts : list (jsstring * jsstring))
| Blob (bytes : list N).

Record t : Type := {
  method : jsstring;
  path : jsstring;
  query : option (list (jsstring * option jsstring));
  body : body_arg;
  headers : option (list (jsstring * jsstring));
  parser : option RequestParser;
  allowOfflineQueue : bool
}.

End RequestOptions.

Module PrimaryKeyConfig.
Record t : Type := {
  field : option jsstring;
  type : option jsstring;
  auto : option bool
}.
End PrimaryKeyConfig.

Module EnsureCollectionInput.
Record t : Type := {
  name : jsstring;
  schema : value;
  primaryKey : option PrimaryKeyConfig.t
}.
End EnsureCollectionInput.

Module ListOptions.
Record t : Type := {
  limit : value;
  offset : value;
  includeDeleted : value;
  select : option (list jsstring);
  (** the entries of the [filters] object *)
  filters : option (list (jsstring * value))
}.
End ListOptions.

Module SyncParams.

(** [since]: a string, or a [Date], which is told by what its
    [toISOString()] returns ([None] when it throws a [RangeError]). *)
Inductive since_arg : Type :=
| Text (s : jsstring)
| Date (toISOString : option jsstring).

Record t : Type := {
  since : option since_arg;
  cursor : option jsstring;
  limit : value;
  includeDeleted : option bool
}.

End SyncParams.

Module ListResult.
Record t : Type := {
  items : list DocumentRecord;
  pagination : value
}.
End ListResult.

Module SyncChange.
Record t : Type := {
  document : DocumentRecord;
  change_type : value
}.
End SyncChange.

Module SyncResult.
Record t : Type := {
  items : list SyncChange.t;
  pagination : value;
  since : value
}.
End SyncResult.

(** The objects of the SDK, as records of their fields.  The fields of a
    client never change once it is built; its offline queue is in the world.
    A builder made by [TinyDB.collection] has no [onResolved] callback. *)
Module Fields.

Module TinyDB.
Record t : Type := {
  fetchImpl : FetchLike;
  endpoint : jsstring;
  appId : option jsstring;
  offlineMode : bool;
  baseHeaders : list (jsstring * jsstring)
}.
End TinyDB.

Module CollectionBuilder.
Record t : Type := {
  client : TinyDB.t;
  name : jsstring;
  schemaDef : value;
  pkConfig : option PrimaryKeyConfig.t
}.
End CollectionBuilder.

Module CollectionClient.
Record t : Type := {
  client : TinyDB.t;
  name : jsstring;
  metadata : value
}.
End CollectionClient.

End Fields.

Module TinyDB.
Import Fields.TinyDB.
Section WithRuntime.
Context {R : Runtime}.

Definition nonempty (s : jsstring) : bool :=
  match s with
  | [] => false
  | _ :: _ => true
  end.

Definition ensureFetch (fetchImpl : option FetchLike) : result FetchLike :=
  let candidate :=
    match fetchImpl with
    | Some f => Some f
    | None => globalThis_fetch
    end in
  match candidate with
  | None =>
      inl (Error (js "fetch implementation is required. Provide options.fetch or ensure global fetch exists."))
  | Some f => inr f
  end.

(** [new TinyDB(options)]; the queue of the new client is empty. *)
Definition constructor (options : TinyDBOptions.t) : result t :=
  if negb (nonempty (TinyDBOptions.endpoint options)) then
    inl (Error (js "endpoint is required"))
  else if negb (nonempty (TinyDBOptions.apiKey options)) then
    inl (Error (js "apiKey is required"))
  else
    match ensureFetch (TinyDBOptions.fetch options) with
    | inl e => inl e
    | inr f =>
        let base := [(js "Accept", js "application/json");
                     (js "X-API-Key", TinyDBOptions.apiKey options)] in
        inr {| fetchImpl := f;
               endpoint := replaceTrailingSlash (TinyDBOptions.endpoint options) (js "/");
               appId := TinyDBOptions.appId options;
               offlineMode := TinyDBOptions.offlineMode options;
               baseHeaders :=
                 match TinyDBOptions.appId options with
                 | Some a => if nonempty a then assign (js "X-App-ID") a base else base
                 | None => base
                 end |}
    end.

(** The headers and the body of the request, lines 587-601. *)
Definition prepare (self : t) (options : RequestOptions.t)
  : list (jsstring * jsstring) * option BodyInit :=
  let headers :=
    spread (baseHeaders self)
           (match RequestOptions.headers options with
            | Some h => h
            | None => []
            end) in
  match RequestOptions.body options with
  | RequestOptions.Value JUndefined => (headers, None)
  | RequestOptions.FormData parts => (headers, Some (BodyFormData parts))
  | RequestOptions.Blob bytes => (headers, Some (BodyBlob bytes))
  | RequestOptions.Value v =>
      (assign (js "Content-Type")
              (match lookup (js "Content-Type") headers with
               | Some c => c
               | None => js "application/json"
               end)
              headers,
       Some (BodyText (JSON_stringify v)))
  end.

Definition requestInit (self : t) (options : RequestOptions.t) : RequestInit :=
  {| Http.method := RequestOptions.method options;
     Http.headers := fst (prepare self options);
     Http.body := snd (prepare self options) |}.

Definition requestParser (options : RequestOptions.t) : RequestParser :=
  match RequestOptions.parser options with
  | Some p => p
  | None => jsonParser
  end.

Definition invalidURL : exn := TypeError (js "Invalid URL").

(** The condition of line 614 under which a failure is queued. *)
Definition queueable (self : t) (options : RequestOptions.t) (error : exn) : bool :=
  offlineMode self
  && RequestOptions.allowOfflineQueue options
  && negb (JSString.eqb (RequestOptions.method options) (js "GET"))
  && isNetworkError error.

Definition requestInternal (self : t) (options : RequestOptions.t) : M value :=
  let parser := requestParser options in
  match buildURL (endpoint self) (RequestOptions.path options) (RequestOptions.query options) with
  | None => throw invalidURL
  | Some url =>
      let init := requestInit self options in
      try_catch
        (response <- Async.fetch (fetchImpl self) url init ;;
         if negb (ok response) then
           (error <- lift (parseError response) ;; throw error)
         else lift (parser response))
        (fun error =>
           if queueable self options error then
             let queued := mkQueuedOperation url init parser in
             push queued ;;;
             throw (OfflineError (js "Request queued while offline") queued)
           else throw error)
  end.

(** One turn of the loop of [flushOfflineQueue] on the operation at the head
    of the queue. *)
Definition replay (self : t) (operation : QueuedOperation) : M unit :=
  response <- Async.fetch (fetchImpl self) (url operation) (init operation) ;;
  (if negb (ok response) then
     (error <- lift (parseError response) ;; throw error)
   else ret tt) ;;;
  _ <- lift (Http.parser operation response) ;;
  shift.

(** [while (this.offlineQueue.length > 0) { ... }] with a bound on the number
    of turns; [None] when the bound is reached with operations left. *)
Fixpoint flushLoop (self : t) (turns : nat) (w : World) : option (result unit * World) :=
  match offlineQueue w with
  | [] => Some (inr tt, w)
  | operation :: _ =>
      match turns with
      | O => None
      | S turns' =>
          match replay self operation w with
          | (inr _, w') => flushLoop self turns' w'
          | (inl e, w') => Some (inl e, w')
          end
      end
  end.

(** Every turn that does not throw shortens the queue by one, so its length
    bounds the turns. *)
Definition flushOfflineQueue (self : t) (w : World) : option (result unit * World) :=
  flushLoop self (List.length (offlineQueue w)) w.

Definition notAFunction (what : jsstring) : exn :=
  TypeError (what ++ js " is not a function").

(** [what.map(f)] for a callback that can throw. *)
Fixpoint mapElements {A : Type} (f : value -> result A) (elems : list value)
  : result (list A) :=
  match elems with
  | [] => inr []
  | x :: rest =>
      match f x with
      | inl e => inl e
      | inr y =>
          match mapElements f rest with
          | inl e => inl e
          | inr ys => inr (y :: ys)
          end
      end
  end.

Definition arrayMap {A : Type} (what : jsstring) (f : value -> result A) (payload : value)
  : result (list A) :=
  match payload with
  | JArr elems _ => mapElements f elems
  | JUndefined | JNull => inl (cannotReadOf payload (js "map"))
  | _ => inl (notAFunction (what ++ js ".map"))
  end.

Definition collections (self : t) : M (list value) :=
  payload <- requestInternal self
    {| RequestOptions.method := js "GET";
       RequestOptions.path := js "/api/collections";
       RequestOptions.query := None;
       RequestOptions.body := RequestOptions.Value JUndefined;
       RequestOptions.headers := None;
       RequestOptions.parser := Some jsonParser;
       RequestOptions.allowOfflineQueue := false |} ;;
  lift (arrayMap (js "payload") parseCollection payload).

(** [listings.find((col) => col.name.toLowerCase() === lowered)] *)
Fixpoint find (lowered : jsstring) (listings : list value) : result (option value) :=
  match listings with
  | [] => inr None
  | col :: rest =>
      match get col (js "name") with
      | JStr n =>
          if JSString.eqb (toLowerCase n) lowered then inr (Some col)
          else find lowered rest
      | JUndefined | JNull => inl (cannotReadOf (get col (js "name")) (js "toLowerCase"))
      | _ => inl (notAFunction (js "col.name.toLowerCase"))
      end
  end.

Definition collectionNotFound (name : jsstring) : exn :=
  TinyDBError (js "collection " ++ name ++ js " not found") 404
              (JStr (js "collection_not_found")) JUndefined.

Definition describeCollection (self : t) (name : jsstring) : M value :=
  listings <- collections self ;;
  let lowered := toLowerCase name in
  found <- lift (find lowered listings) ;;
  match found with
  | None => throw (collectionNotFound name)
  | Some col => ret col
  end.

Definition isConflict (error : exn) : bool :=
  match error with
  | TinyDBError _ status _ _ => (status =? 409)%Z
  | _ => false
  end.

Definition truthyString (s : option jsstring) : bool :=
  match s with
  | Some s => nonempty s
  | None => false
  end.

(** The string behind a [string | undefined] that was tested truthy. *)
Definition textOf (s : option jsstring) : jsstring :=
  match s with
  | Some s => s
  | None => []
  end.

(** [pk] of lines 524-533. *)
Definition primaryKeyBlock (config : PrimaryKeyConfig.t) : object :=
  let pk := [] in
  let pk :=
    match PrimaryKeyConfig.field config with
    | Some f => if nonempty f then assign (js "field") (JStr f) pk else pk
    | None => pk
    end in
  let pk :=
    match PrimaryKeyConfig.type config with
    | Some ty => if nonempty ty then assign (js "type") (JStr ty) pk else pk
    | None => pk
    end in
  match PrimaryKeyConfig.auto config with
  | Some b => assign (js "auto") (JBool b) pk
  | None => pk
  end.

(** [body] of lines 515-537. *)
Definition createBody (self : t) (input : EnsureCollectionInput.t)
  (schemaStr : option jsstring) : value :=
  let body := [(js "name", JStr (EnsureCollectionInput.name input))] in
  let body :=
    if truthyString schemaStr
    then assign (js "schema") (JStr (textOf schemaStr)) body
    else body in
  let body :=
    match appId self with
    | Some a => if nonempty a then assign (js "app_id") (JStr a) body else body
    | None => body
    end in
  let body :=
    match EnsureCollectionInput.primaryKey input with
    | Some config =>
        match primaryKeyBlock config with
        | [] => body
        | (_ :: _) as pk => assign (js "primary_key") (JObj pk) body
        end
    | None => body
    end in
  JObj body.

Definition createRequest (self : t) (input : EnsureCollectionInput.t) : RequestOptions.t :=
  {| RequestOptions.method := js "POST";
     RequestOptions.path := js "/api/collections";
     RequestOptions.query := None;
     RequestOptions.body :=
       RequestOptions.Value
         (createBody self input (stringifySchema (EnsureCollectionInput.schema input)));
     RequestOptions.headers := None;
     RequestOptions.parser := Some jsonParser;
     RequestOptions.allowOfflineQueue := false |}.

Definition updateRequest (encodedName schemaStr : jsstring) : RequestOptions.t :=
  {| RequestOptions.method := js "PUT";
     RequestOptions.path := js "/api/collections/" ++ encodedName;
     RequestOptions.query := None;
     RequestOptions.body := RequestOptions.Value (JObj [(js "schema", JStr schemaStr)]);
     RequestOptions.headers := None;
     RequestOptions.parser := Some jsonParser;
     RequestOptions.allowOfflineQueue := false |}.

Definition uriMalformed : exn := Error (js "URI malformed").

(** The [catch] block of [ensureCollection], lines 547-566. *)
Definition onCreateFailure (self : t) (input : EnsureCollectionInput.t)
  (schemaStr : option jsstring) (error : exn) : M value :=
  if isConflict error then
    if truthyString schemaStr then
      match encodeURIComponent (EnsureCollectionInput.name input) with
      | None => throw uriMalformed
      | Some encoded =>
          updated <- requestInternal self (updateRequest encoded (textOf schemaStr)) ;;
          lift (parseCollection updated)
      end
    else
      existing <- describeCollection self (EnsureCollectionInput.name input) ;;
      if truthy existing then ret existing else throw error
  else throw error.

(** The [try] block of [ensureCollection], lines 538-546. *)
Definition tryCreate (self : t) (input : EnsureCollectionInput.t) : M value :=
  created <- requestInternal self (createRequest self input) ;;
  lift (parseCollection created).

Definition ensureCollection (self : t) (input : EnsureCollectionInput.t) : M value :=
  let schemaStr := stringifySchema (EnsureCollectionInput.schema input) in
  try_catch (tryCreate self input) (onCreateFailure self input schemaStr).

Definition me (self : t) : M value :=
  requestInternal self
    {| RequestOptions.method := js "GET";
       RequestOptions.path := js "/api/me";
       RequestOptions.query := None;
       RequestOptions.body := RequestOptions.Value JUndefined;
       RequestOptions.headers := None;
       RequestOptions.parser := Some jsonParser;
       RequestOptions.allowOfflineQueue := false |}.


End WithRuntime.
End TinyDB.

Module CollectionBuilder.
Import Fields.CollectionBuilder.
Section WithRuntime.
Context {R : Runtime}.

Definition schema (self : t) (definition : value) : t :=
  {| client := client self; name := name self;
     schemaDef := definition; pkConfig := pkConfig self |}.


Definition sync (self : t) : M Fields.CollectionClient.t :=
  meta <- TinyDB.ensureCollection (client self)
    {| EnsureCollectionInput.name := name self;
       EnsureCollectionInput.schema := schemaDef self;
       EnsureCollectionInput.primaryKey := pkConfig self |} ;;
  ret {| Fields.CollectionClient.client := client self;
         Fields.CollectionClient.name := name self;
         Fields.CollectionClient.metadata := meta |}.

(** [resolve], which [then] runs when the builder is awaited. *)
Definition resolve (self : t) : M Fields.CollectionClient.t :=
  if truthy (schemaDef self)
     || match pkConfig self with Some _ => true | None => false end
  then sync self
  else
    meta <- TinyDB.ensureCollection (client self)
      {| EnsureCollectionInput.name := name self;
         EnsureCollectionInput.schema := JUndefined;
         EnsureCollectionInput.primaryKey := None |} ;;
    ret {| Fields.CollectionClient.client := client self;
           Fields.CollectionClient.name := name self;
           Fields.CollectionClient.metadata := meta |}.

End WithRuntime.
End CollectionBuilder.

Module CollectionClient.
Import Fields.CollectionClient.
Section WithRuntime.
Context {R : Runtime}.

(** A path made of a template literal with [encodeURIComponent] calls in it
    is computed before the request is made, and throws when one of them
    does. *)
Definition documentsPath (self : t) (suffix : jsstring) : option jsstring :=
  match encodeURIComponent (name self) with
  | Some n => Some (js "/api/collections/" ++ n ++ js "/documents" ++ suffix)
  | None => None
  end.

Definition documentPath (self : t) (id suffix : jsstring) : option jsstring :=
  match encodeURIComponent (name self), encodeURIComponent id with
  | Some n, Some i =>
      Some (js "/api/collections/" ++ n ++ js "/documents/" ++ i ++ suffix)
  | _, _ => None
  end.

(** [async () => undefined] *)
Definition ignoreResponse : RequestParser := fun _ => inr JUndefined.

Definition deleteRequest (path : jsstring) : RequestOptions.t :=
  {| RequestOptions.method := js "DELETE";
     RequestOptions.path := path;
     RequestOptions.query := None;
     RequestOptions.body := RequestOptions.Value JUndefined;
     RequestOptions.headers := None;
     RequestOptions.parser := Some ignoreResponse;
     RequestOptions.allowOfflineQueue := true |}.

Definition purgeRequest (path : jsstring) : RequestOptions.t :=
  {| RequestOptions.method := js "DELETE";
     RequestOptions.path := path;
     RequestOptions.query := Some [(js "confirm", Some (js "true"))];
     RequestOptions.body := RequestOptions.Value JUndefined;
     RequestOptions.headers := None;
     RequestOptions.parser := Some ignoreResponse;
     RequestOptions.allowOfflineQueue := true |}.

(** [delete(id)] for a single identifier. *)
Definition deleteOne (self : t) (id : jsstring) : M unit :=
  match documentPath self id [] with
  | None => throw TinyDB.uriMalformed
  | Some path =>
      _ <- TinyDB.requestInternal (client self) (deleteRequest path) ;;
      ret tt
  end.

Definition delete (self : t) (id : jsstring + list jsstring) : M unit :=
  match id with
  | inr ids => forEach (fun docId => deleteOne self docId) ids
  | inl id => deleteOne self id
  end.

Definition purgeOne (self : t) (id : jsstring) : M unit :=
  match documentPath self id (js "/purge") with
  | None => throw TinyDB.uriMalformed
  | Some path =>
      _ <- TinyDB.requestInternal (client self) (purgeRequest path) ;;
      ret tt
  end.

Definition purge (self : t) (id : jsstring + list jsstring) : M unit :=
  match id with
  | inr ids => forEach (fun docId => purgeOne self docId) ids
  | inl id => purgeOne self id
  end.

Definition createRequest (path : jsstring) (body : value) : RequestOptions.t :=
  {| RequestOptions.method := js "POST";
     RequestOptions.path := path;
     RequestOptions.query := None;
     RequestOptions.body := RequestOptions.Value body;
     RequestOptions.headers := None;
     RequestOptions.parser := Some jsonParser;
     RequestOptions.allowOfflineQueue := true |}.

(** The call that a request makes once its path and its URL are built. *)
Definition callOf (self : t) (path : option jsstring) (options : jsstring -> RequestOptions.t)
  : option call :=
  match path with
  | Some p =>
      match buildURL (Fields.TinyDB.endpoint (client self))
                     (RequestOptions.path (options p)) (RequestOptions.query (options p)) with
      | Some u => Some (u, TinyDB.requestInit (client self) (options p))
      | None => None
      end
  | None => None
  end.

Definition deleteCall (self : t) (id : jsstring) : option call :=
  callOf self (documentPath self id []) deleteRequest.

Definition purgeCall (self : t) (id : jsstring) : option call :=
  callOf self (documentPath self id (js "/purge")) purgeRequest.

(** What [create] resolves with: one record, or a list of them. *)
Inductive created : Type :=
| Document (record : DocumentRecord)
| Documents (records : list DocumentRecord).

Definition create (self : t) (docOrDocs : value) : M created :=
  match docOrDocs with
  | JArr elems _ =>
      match elems with
      | [] => ret (Documents [])
      | _ :: _ =>
          match documentsPath self (js "/bulk") with
          | None => throw TinyDB.uriMalformed
          | Some path =>
              response <- TinyDB.requestInternal (client self) (createRequest path docOrDocs) ;;
              let items := coalesce (get_opt response (js "items")) (JArr [] []) in
              records <- lift (TinyDB.arrayMap (js "items") parseDocument items) ;;
              ret (Documents records)
          end
      end
  | _ =>
      match documentsPath self [] with
      | None => throw TinyDB.uriMalformed
      | Some path =>
          payload <- TinyDB.requestInternal (client self) (createRequest path docOrDocs) ;;
          record <- lift (parseDocument payload) ;;
          ret (Document record)
      end
  end.

(** *** Reading and replacing documents *)

Definition cannotConvert : exn :=
  TypeError (js "Cannot convert object to primitive value").

Definition toQueryValue (v : value) : result (option jsstring) :=
  match v with
  | JUndefined => inr None
  | _ =>
      match ToString v with
      | Some s => inr (Some s)
      | None => inl cannotConvert
      end
  end.

(** The query object of a request, by its entries. *)
Definition queryObject : Type := list (jsstring * option jsstring).

(** [if (v !== undefined) { query[k] = toQueryValue(v); }] *)
Definition setDefined (k : jsstring) (v : value) (query : queryObject) : result queryObject :=
  match v with
  | JUndefined => inr query
  | _ =>
      match toQueryValue v with
      | inl e => inl e
      | inr s => inr (assign k s query)
      end
  end.

(** [for (const [key, value] of Object.entries(filters)) { ... }] *)
Fixpoint setFilters (entries : list (jsstring * value)) (query : queryObject)
  : result queryObject :=
  match entries with
  | [] => inr query
  | (key, v) :: rest =>
      match toQueryValue v with
      | inl e => inl e
      | inr s => setFilters rest (assign (js "f." ++ key) s query)
      end
  end.

(** [l.join(sep)] on strings. *)
Fixpoint join (sep : jsstring) (l : list jsstring) : jsstring :=
  match l with
  | [] => []
  | x :: rest =>
      match rest with
      | [] => x
      | _ :: _ => x ++ sep ++ join sep rest
      end
  end.

(** [query] of [list], lines 677-694. *)
Definition listQuery (options : ListOptions.t) : result queryObject :=
  match setDefined (js "limit") (ListOptions.limit options) [] with
  | inl e => inl e
  | inr query =>
      match setDefined (js "offset") (ListOptions.offset options) query with
      | inl e => inl e
      | inr query =>
          let query :=
            if truthy (ListOptions.includeDeleted options)
            then assign (js "include_deleted") (Some (js "true")) query
            else query in
          let query :=
            match ListOptions.select options with
            | Some (x :: rest) => assign (js "select") (Some (join (js ",") (x :: rest))) query
            | _ => query
            end in
          match ListOptions.filters options with
          | Some entries => setFilters entries query
          | None => inr query
          end
      end
  end.

(** [query] of [sync], lines 859-874. *)
Definition syncQuery (params : SyncParams.t) : result queryObject :=
  match setDefined (js "limit") (SyncParams.limit params) [] with
  | inl e => inl e
  | inr query =>
      let query :=
        match SyncParams.cursor params with
        | Some c => if TinyDB.nonempty c then assign (js "cursor") (Some c) query else query
        | None => query
        end in
      let query :=
        match SyncParams.includeDeleted params with
        | Some b =>
            assign (js "include_deleted") (Some (if b then js "true" else js "false")) query
        | None => query
        end in
      match SyncParams.since params with
      | Some (SyncParams.Text s) =>
          inr (if TinyDB.nonempty s then assign (js "since") (Some s) query else query)
      | Some (SyncParams.Date (Some iso)) => inr (assign (js "since") (Some iso) query)
      | Some (SyncParams.Date None) => inl (Error (js "Invalid time value"))
      | None => inr query
      end
  end.

(** [`/api/collections/${encodeURIComponent(this.name)}` + suffix] *)
Definition collectionPath (self : t) (suffix : jsstring) : option jsstring :=
  match encodeURIComponent (name self) with
  | Some n => Some (js "/api/collections/" ++ n ++ suffix)
  | None => None
  end.

Definition primaryPath (self : t) (key : jsstring) : option jsstring :=
  match encodeURIComponent (name self), encodeURIComponent key with
  | Some n, Some k =>
      Some (js "/api/collections/" ++ n ++ js "/documents/primary/" ++ k)
  | _, _ => None
  end.

(** The options of the requests that read: a GET, with no word on queuing. *)
Definition readRequest (query : option queryObject) (path : jsstring) : RequestOptions.t :=
  {| RequestOptions.method := js "GET";
     RequestOptions.path := path;
     RequestOptions.query := query;
     RequestOptions.body := RequestOptions.Value JUndefined;
     RequestOptions.headers := None;
     RequestOptions.parser := Some jsonParser;
     RequestOptions.allowOfflineQueue := false |}.

(** The options of [update] and [patch]. *)
Definition writeRequest (verb : jsstring) (doc : value) (path : jsstring) : RequestOptions.t :=
  {| RequestOptions.method := verb;
     RequestOptions.path := path;
     RequestOptions.query := None;
     RequestOptions.body := RequestOptions.Value doc;
     RequestOptions.headers := None;
     RequestOptions.parser := Some jsonParser;
     RequestOptions.allowOfflineQueue := true |}.

(** The options of [query]: a POST that does not ask for queuing. *)
Definition queryRequest (request : value) (path : jsstring) : RequestOptions.t :=
  {| RequestOptions.method := js "POST";
     RequestOptions.path := path;
     RequestOptions.query := None;
     RequestOptions.body := RequestOptions.Value request;
     RequestOptions.headers := None;
     RequestOptions.parser := Some jsonParser;
     RequestOptions.allowOfflineQueue := false |}.

(** A request on a path that is computed first. *)
Definition requestOn (self : t) (path : option jsstring) (options : jsstring -> RequestOptions.t)
  : M value :=
  match path with
  | None => throw TinyDB.uriMalformed
  | Some p => TinyDB.requestInternal (client self) (options p)
  end.

(** [{ items: (response.items ?? []).map(parseDocument),
       pagination: response.pagination ?? {} }] *)
Definition decodePage (response : value) : result ListResult.t :=
  if nullish response then inl (cannotReadOf response (js "items"))
  else
    match TinyDB.arrayMap (js "(intermediate value)") parseDocument
            (coalesce (get response (js "items")) (JArr [] [])) with
    | inl e => inl e
    | inr records =>
        inr {| ListResult.items := records;
               ListResult.pagination := coalesce (get response (js "pagination")) (JObj []) |}
    end.

Definition decodeChange (item : value) : result SyncChange.t :=
  if nullish item then inl (cannotReadOf item (js "change_type"))
  else
    match parseDocument (get item (js "document")) with
    | inl e => inl e
    | inr d =>
        inr {| SyncChange.document := d;
               SyncChange.change_type := get item (js "change_type") |}
    end.

Definition decodeChanges (response : value) : result SyncResult.t :=
  if nullish response then inl (cannotReadOf response (js "items"))
  else
    match TinyDB.arrayMap (js "(intermediate value)") decodeChange
            (coalesce (get response (js "items")) (JArr [] [])) with
    | inl e => inl e
    | inr changes =>
        inr {| SyncResult.items := changes;
               SyncResult.pagination := coalesce (get response (js "pagination")) (JObj []);
               SyncResult.since := get response (js "since") |}
    end.

Definition list (self : t) (options : ListOptions.t) : M ListResult.t :=
  match listQuery options with
  | inl e => throw e
  | inr query =>
      response <- requestOn self (documentsPath self []) (readRequest (Some query)) ;;
      lift (decodePage response)
  end.

Definition getByPk (self : t) (key : jsstring) : M DocumentRecord :=
  payload <- requestOn self (primaryPath self key) (readRequest None) ;;
  lift (parseDocument payload).

(** [get(id, options)]; [pk] is [options?.pk]. *)
Definition get (self : t) (id : jsstring) (pk : bool) : M DocumentRecord :=
  if pk then getByPk self id
  else
    payload <- requestOn self (documentPath self id []) (readRequest None) ;;
    lift (parseDocument payload).

Definition update (self : t) (id : jsstring) (doc : value) : M DocumentRecord :=
  payload <- requestOn self (documentPath self id []) (writeRequest (js "PUT") doc) ;;
  lift (parseDocument payload).

Definition patch (self : t) (id : jsstring) (doc : value) : M DocumentRecord :=
  payload <- requestOn self (documentPath self id []) (writeRequest (js "PATCH") doc) ;;
  lift (parseDocument payload).

Definition query (self : t) (request : value) : M ListResult.t :=
  response <- requestOn self (collectionPath self (js "/query")) (queryRequest request) ;;
  lift (decodePage response).

Definition sync (self : t) (params : SyncParams.t) : M SyncResult.t :=
  match syncQuery params with
  | inl e => throw e
  | inr query =>
      response <- requestOn self (collectionPath self (js "/sync")) (readRequest (Some query)) ;;
      lift (decodeChanges response)
  end.

Definition schemaJson (self : t) : M value :=
  response <- requestOn self (collectionPath self (js "/schema")) (readRequest None) ;;
  if nullish response then throw (cannotReadOf response (js "schema"))
  else ret (JSValue.get response (js "schema")).

(** [refresh]: the client with its new metadata, and the metadata. *)
Definition refresh (self : t) : M (t * value) :=
  meta <- TinyDB.describeCollection (client self) (name self) ;;
  ret ({| client := client self; name := name self; metadata := meta |}, meta).

End WithRuntime.
End CollectionClient.

(** ** What one exchange with the transport yields

    The [try] block of [requestInternal] and the body of the loop of
    [flushOfflineQueue], read as functions of the calls made so far. *)

Module Exchange.
Import Fields.TinyDB.
Section WithRuntime.
Context {R : Runtime}.

(** The call, the status check and the parser. *)
Definition exchange (self : t) (parser : RequestParser) (log : list call)
  (u : jsstring) (i : RequestInit) : result value :=
  match fetchImpl self log u i with
  | inl e => inl e
  | inr response =>
      if negb (ok response) then
        match parseError response with
        | inl e => inl e
        | inr e => inl e
        end
      else parser response
  end.

(** The query entries that have a value. *)
Definition defined (kv : jsstring * option jsstring) : bool :=
  match snd kv with
  | Some _ => true
  | None => false
  end.

(** The call that replays a queued operation. *)
Definition request (operation : QueuedOperation) : call :=
  (url operation, init operation).

(** The replay of a queued operation after the calls of [log]. *)
Definition attempt (self : t) (operation : QueuedOperation) (log : list call) : result unit :=
  match exchange self (parser operation) log (url operation) (init operation) with
  | inl e => inl e
  | inr _ => inr tt
  end.

(** [Array.isArray(v)] *)
Definition isArray (v : value) : bool :=
  match v with
  | JArr _ _ => true
  | _ => false
  end.

(** The computation rejects as queued: one operation was added at the tail
    of the queue, for the URL [u] and the method [verb], the transport was
    called once, with that operation, and the caller gets the
    [OfflineError] that carries it. *)
Definition queuedAs {A : Type} (verb u : jsstring) (m : M A) (w : World) : Prop :=
  exists queued,
    m w = (inl (OfflineError (js "Request queued while offline") queued),
           {| offlineQueue := offlineQueue w ++ [queued];
              calls := calls w ++ [request queued] |})
    /\ url queued = u
    /\ method (init queued) = verb.





End WithRuntime.
End Exchange.
Export Exchange.

(** ** A runtime to run the definitions on examples

    It agrees with the JavaScript runtime on the inputs of the examples of
    this file: [JSON.parse] on the texts of [jsonTexts], [JSON.stringify] and
    [String] on values made of booleans, objects and strings without control
    characters, [toLowerCase] on ASCII strings, [encodeURIComponent] on every
    string, [new URL] on absolute [https] URLs that are already in normal
    form, with query values that need no escaping. *)

Module Sample.

(** ["..."] inside a JSON text. *)
Definition quoted (s : string) : jsstring := [34%N] ++ js s ++ [34%N].

Definition usersListing : jsstring :=
  js "[{" ++ quoted "id" ++ js ":" ++ quoted "c1" ++ js ","
          ++ quoted "name" ++ js ":" ++ quoted "Users" ++ js "}]".

Definition networkMessage : jsstring :=
  js "{" ++ quoted "message" ++ js ":" ++ quoted "upstream network unreachable" ++ js "}".

Definition jsonTexts : list (jsstring * value) :=
  [ (js "{}", JObj []);
    (js "[]", JArr [] []);
    (js "true", JBool true);
    (js "null", JNull);
    (js "1", JNum one);
    (quoted "x", JStr (js "x"));
    (js "{" ++ quoted "_doc_id" ++ js ":" ++ quoted "k7" ++ js "}",
     JObj [(js "_doc_id", JStr (js "k7"))]);
    (js "{" ++ quoted "id" ++ js ":" ++ quoted "c1" ++ js "}",
     JObj [(js "id", JStr (js "c1"))]);
    (usersListing,
     JArr [JObj [(js "id", JStr (js "c1")); (js "name", JStr (js "Users"))]] []);
    (networkMessage,
     JObj [(js "message", JStr (js "upstream network unreachable"))]) ].

Definition parse (s : jsstring) : option value := lookup s jsonTexts.

Definition escape (c : N) : jsstring :=
  if ((c =? 34) || (c =? 92))%N then [92%N; c] else [c].

Fixpoint stringify (v : value) : jsstring :=
  match v with
  | JBool true => js "true"
  | JBool false => js "false"
  | JStr s => [34%N] ++ flat_map escape s ++ [34%N]
  | JObj props =>
      js "{"
      ++ (fix members (first : bool) (l : list (jsstring * value)) : jsstring :=
            match l with
            | [] => []
            | (_, JUndefined) :: rest => members first rest
            | (k, x) :: rest =>
                (if first then [] else js ",")
                ++ [34%N] ++ flat_map escape k ++ [34%N] ++ js ":" ++ stringify x
                ++ members false rest
            end) true props
      ++ js "}"
  | _ => js "null"
  end.

Definition stringify_nonempty (v : value) : stringify v <> [] :=
  match v as v' return stringify v' <> [] with
  | JBool true => fun H => nil_cons (eq_sym H)
  | JBool false => fun H => nil_cons (eq_sym H)
  | JStr _ => fun H => nil_cons (eq_sym H)
  | JObj _ => fun H => nil_cons (eq_sym H)
  | JUndefined => fun H => nil_cons (eq_sym H)
  | JNull => fun H => nil_cons (eq_sym H)
  | JNum _ => fun H => nil_cons (eq_sym H)
  | JArr _ _ => fun H => nil_cons (eq_sym H)
  end.

Definition toString (v : value) : option jsstring :=
  match v with
  | JUndefined => Some (js "undefined")
  | JNull => Some (js "null")
  | JBool true => Some (js "true")
  | JBool false => Some (js "false")
  | JStr s => Some s
  | JObj props =>
      match lookup (js "toString") props, lookup (js "valueOf") props with
      | None, None => Some (js "[object Object]")
      | _, _ => None
      end
  | _ => None
  end.

Definition lower (s : jsstring) : jsstring := List.map foldCase s.

Definition unreserved (c : N) : bool :=
  ((65 <=? c) && (c <=? 90) || (97 <=? c) && (c <=? 122) || (48 <=? c) && (c <=? 57)
   || (c =? 45) || (c =? 95) || (c =? 46) || (c =? 33) || (c =? 126)
   || (c =? 42) || (c =? 39) || (c =? 40) || (c =? 41))%N.

Definition hexDigit (n : N) : N := (if n <? 10 then 48 + n else 55 + n)%N.

Definition percent (byte : N) : jsstring :=
  [37%N; hexDigit (byte / 16); hexDigit (byte mod 16)].

Definition utf8 (cp : N) : list N :=
  (if cp <? 128 then [cp]
   else if cp <? 2048 then [192 + cp / 64; 128 + cp mod 64]
   else if cp <? 65536 then [224 + cp / 4096; 128 + (cp / 64) mod 64; 128 + cp mod 64]
   else [240 + cp / 262144; 128 + (cp / 4096) mod 64; 128 + (cp / 64) mod 64;
         128 + cp mod 64])%N.

(** [encodeURIComponent]: [None] on a lone surrogate. *)
Fixpoint encode (s : jsstring) : option jsstring :=
  match s with
  | [] => Some []
  | c :: rest =>
      if unreserved c then option_map (app [c]) (encode rest)
      else if ((c <? 55296) || (57343 <? c))%N then
        option_map (app (flat_map percent (utf8 c))) (encode rest)
      else if (c <? 56320)%N then
        match rest with
        | lo :: rest' =>
            if ((56320 <=? lo) && (lo <=? 57343))%N then
              option_map
                (app (flat_map percent (utf8 (65536 + (c - 55296) * 1024 + (lo - 56320))%N)))
                (encode rest')
            else None
        | [] => None
        end
      else None
  end.

(** A parsed URL: its text up to the query, and the query parameters. *)
Definition parsedURL : Type := (jsstring * list (jsstring * jsstring))%type.

Fixpoint hasPrefix (p s : jsstring) : bool :=
  match p, s with
  | [], _ => true
  | a :: p', b :: s' => (a =? b)%N && hasPrefix p' s'
  | _ :: _, [] => false
  end.

Definition newURL (s : jsstring) : option parsedURL :=
  if hasPrefix (js "https://") s then Some (s, []) else None.

Definition searchParamsSet (u : parsedURL) (k v : jsstring) : parsedURL :=
  (fst u, assign k v (snd u)).

Definition urlToString (u : parsedURL) : jsstring :=
  fst u
  ++ (fix params (first : bool) (l : list (jsstring * jsstring)) : jsstring :=
        match l with
        | [] => []
        | (k, v) :: rest =>
            (if first then js "?" else js "&") ++ k ++ js "=" ++ v ++ params false rest
        end) true (snd u).

#[export] Instance runtime : Runtime := {|
  JSON_parse := parse;
  JSON_stringify := stringify;
  JSON_stringify_nonempty := stringify_nonempty;
  ToString := toString;
  ToString_string := fun s => eq_refl;
  toLowerCase := lower;
  encodeURIComponent := encode;
  URL := parsedURL;
  new_URL := newURL;
  searchParams_set := searchParamsSet;
  URL_toString := urlToString;
  globalThis_fetch := None
|}.

(** A client of [https://db.example] in offline mode, over a given
    transport. *)
Definition client (transport : FetchLike) (offline : bool) : Fields.TinyDB.t :=
  {| Fields.TinyDB.fetchImpl := transport;
     Fields.TinyDB.endpoint := js "https://db.example/";
     Fields.TinyDB.appId := None;
     Fields.TinyDB.offlineMode := offline;
     Fields.TinyDB.baseHeaders :=
       [(js "Accept", js "application/json"); (js "X-API-Key", js "secret")] |}.

Definition emptyWorld : World := {| offlineQueue := []; calls := [] |}.

Definition respond (code : Z) (reason : string) (bodyText : jsstring) : Response :=
  {| status := code; statusText := js reason; text := bodyText |}.

(** A transport that is down: every call fails the way [fetch] does. *)
Definition down : FetchLike := fun _ _ _ => inl (TypeError (js "Failed to fetch")).

(** A transport that answers every call with the same response. *)
Definition always (r : Response) : FetchLike := fun _ _ _ => inr r.

(** A transport that answers by the number of calls made before. *)
Definition script (answers : list (result Response)) : FetchLike :=
  fun log _ _ => nth (List.length log) answers (inl (TypeError (js "Failed to fetch"))).

(** Inputs of the examples. *)

Definition createDocument : RequestOptions.t :=
  {| RequestOptions.method := js "POST";
     RequestOptions.path := js "/api/collections/users/documents";
     RequestOptions.query := None;
     RequestOptions.body := RequestOptions.Value (JObj [(js "name", JStr (js "Sambo"))]);
     RequestOptions.headers := None;
     RequestOptions.parser := None;
     RequestOptions.allowOfflineQueue := true |}.

Definition documentsURL : jsstring := js "https://db.example/api/collections/users/documents".

(** An HTTP 503 whose body speaks of the network. *)
Definition unavailable : Response := respond 503 "Service Unavailable" networkMessage.


Definition serverError : Response := respond 500 "Internal Server Error" [].

Definition noContent : Response := respond 204 "No Content" [].

Definition okWith (bodyText : jsstring) : Response := respond 200 "OK" bodyText.

(** A document whose data string parses to a boolean. *)
Definition booleanData : value :=
  JObj [(js "id", JStr (js "d1")); (js "data", JStr (js "true"))].

(** A document whose data string parses to an array. *)
Definition arrayData : value :=
  JObj [(js "id", JStr (js "d1")); (js "data", JStr (js "[]"))].

(** A document whose data already holds an internal id. *)
Definition keyedData : value :=
  JObj [(js "id", JStr (js "d1"));
        (js "data", JStr (js "{" ++ quoted "_doc_id" ++ js ":" ++ quoted "k7" ++ js "}"))].

(** A document whose version is NaN. *)
Definition nanVersion : value :=
  JObj [(js "id", JStr (js "d1")); (js "version", JNum S754_nan)].

Definition usersInput : EnsureCollectionInput.t :=
  {| EnsureCollectionInput.name := js "users";
     EnsureCollectionInput.schema := JUndefined;
     EnsureCollectionInput.primaryKey := None |}.

Definition users (transport : FetchLike) (offline : bool) : Fields.CollectionClient.t :=
  {| Fields.CollectionClient.client := client transport offline;
     Fields.CollectionClient.name := js "users";
     Fields.CollectionClient.metadata := JUndefined |}.

Definition readMe : RequestOptions.t :=
  {| RequestOptions.method := js "GET";
     RequestOptions.path := js "/api/me";
     RequestOptions.query := None;
     RequestOptions.body := RequestOptions.Value JUndefined;
     RequestOptions.headers := None;
     RequestOptions.parser := None;
     RequestOptions.allowOfflineQueue := true |}.

(** The answer to a create request: the new collection. *)
Definition createdCollection : Response :=
  okWith (js "{" ++ quoted "id" ++ js ":" ++ quoted "c1" ++ js "}").

Definition adminsOnly : ListOptions.t :=
  {| ListOptions.limit := JUndefined;
     ListOptions.offset := JUndefined;
     ListOptions.includeDeleted := JBool true;
     ListOptions.select := Some [js "name"; js "email"];
     ListOptions.filters := Some [(js "role", JStr (js "admin"))] |}.

Definition sinceNewYear : SyncParams.t :=
  {| SyncParams.since := Some (SyncParams.Date (Some (js "2024-01-01T00:00:00.000Z")));
     SyncParams.cursor := Some (js "c1");
     SyncParams.limit := JUndefined;
     SyncParams.includeDeleted := Some false |}.

End Sample.

(** * Properties *)

(** ** Strings and property lists *)

Lemma eqb_refl : forall s : jsstring, JSString.eqb s s = true.
Proof.
  induction s as [|c s IH]; simpl; [reflexivity|].
  now rewrite N.eqb_refl, IH.
Qed.

Lemma eqb_eq : forall a b : jsstring, JSString.eqb a b = true <-> a = b.
Proof.
  induction a as [|x a IH]; destruct b as [|y b]; simpl; split; intro H;
    try reflexivity; try discriminate.
  - apply andb_true_iff in H as [Hx Hr].
    apply N.eqb_eq in Hx. apply IH in Hr. now subst.
  - injection H as -> ->. now rewrite N.eqb_refl, eqb_refl.
Qed.

Lemma lookup_assign_same :
  forall (A : Type) (k : jsstring) (v : A) props, lookup k (assign k v props) = Some v.
Proof.
  induction props as [|[k' v'] rest IH]; simpl.
  - now rewrite eqb_refl.
  - destruct (JSString.eqb k' k) eqn:E; simpl.
    + now rewrite eqb_refl.
    + now rewrite E.
Qed.

Lemma get_set_same :
  forall d k x, objectLike d = true -> get (set d k x) k = x.
Proof.
  intros d k x H; destruct d; try discriminate; simpl; now rewrite lookup_assign_same.
Qed.

Lemma objectLike_set : forall d k x, objectLike (set d k x) = objectLike d.
Proof. intros d k x; now destruct d. Qed.





(** ** Payload codec *)

Section CodecFacts.
Context {R : Runtime}.

Lemma JSON_parse_value_string : forall s, JSON_parse_value (JStr s) = JSON_parse s.
Proof. intro s. unfold JSON_parse_value. now rewrite ToString_string. Qed.

Lemma decodeData_objectLike : forall payload_data, objectLike (decodeData payload_data) = true.
Proof.
  intro pd. unfold decodeData.
  destruct (truthy pd); [|reflexivity].
  destruct (JSON_parse_value pd) as [v|]; [|reflexivity].
  destruct v as [| |[|]|x|s|elems props|props]; simpl;
    rewrite ?orb_true_r; reflexivity.
Qed.

Lemma decodeData_absent :
  forall payload_data, truthy payload_data = false -> decodeData payload_data = JObj [].
Proof. intros pd H. unfold decodeData. now rewrite H. Qed.

Lemma decodeData_unparseable :
  forall s, s <> [] -> JSON_parse s = None ->
  decodeData (JStr s) = JObj [(js "_raw", JStr s)].
Proof.
  intros s Hs Hp. unfold decodeData. rewrite JSON_parse_value_string, Hp.
  destruct s; [contradiction|reflexivity].
Qed.

Lemma decodeData_not_object :
  forall s v, s <> [] -> JSON_parse s = Some v -> objectLike v = false ->
  decodeData (JStr s) = JObj [].
Proof.
  intros s v Hs Hp Hv. unfold decodeData. rewrite JSON_parse_value_string, Hp.
  destruct s; [contradiction|]. simpl.
  destruct v; try discriminate; simpl; rewrite ?orb_true_r; reflexivity.
Qed.

Lemma decodeData_object :
  forall s v, s <> [] -> JSON_parse s = Some v -> objectLike v = true ->
  decodeData (JStr s) = v.
Proof.
  intros s v Hs Hp Hv. unfold decodeData. rewrite JSON_parse_value_string, Hp.
  destruct s; [contradiction|]. simpl.
  destruct v; try discriminate; reflexivity.
Qed.

(** The [data] of the record in terms of the decoded data string. *)
Lemma parseDocument_data :
  forall payload, nullish payload = false ->
  exists r docId, parseDocument payload = inr r
    /\ data r = set (decodeData (get payload (js "data"))) (js "_doc_id") docId
    /\ (forall s, s <> [] ->
          get (decodeData (get payload (js "data"))) (js "_doc_id") = JStr s ->
          docId = JStr s)
    /\ ((forall s, get (decodeData (get payload (js "data"))) (js "_doc_id") = JStr s
                   -> s = [])
        -> docId = get payload (js "id")).
Proof.
  intros payload Hp. unfold parseDocument. rewrite Hp.
  set (d := decodeData (get payload (js "data"))).
  set (pid := get payload (js "id")).
  destruct (get d (js "_doc_id")) as [| |b|x|s|elems props|props] eqn:E;
    unfold coalesce; cbn [nullish];
    try (eexists; exists pid; split; [reflexivity|]; cbn [data]; split;
         [destruct (truthy pid && typeof_string pid); reflexivity
         | split; [discriminate | reflexivity]]);
    try (eexists; exists pid; split; [reflexivity|]; cbn [data]; split;
         [cbn [typeof_string]; rewrite andb_false_r; reflexivity
         | split; [discriminate | reflexivity]]).
  destruct s as [|c s].
  - eexists; exists pid. split; [reflexivity|]. cbn [data].
    split; [reflexivity|]. split; [|reflexivity].
    intros s Hs Heq. injection Heq as <-. contradiction.
  - eexists; exists (JStr (c :: s)). split; [reflexivity|]. cbn [data].
    split; [reflexivity|]. split.
    + intros s' _ Heq. exact Heq.
    + intro H. specialize (H (c :: s) eq_refl). discriminate.
Qed.

(** C6: the version of the decoded record is the payload's version when that
    is a number other than NaN, and 1 in every other case: no version, a
    version that is not a number, NaN. *)
Theorem parseDocument_version :
  forall payload, nullish payload = false ->
  exists r, parseDocument payload = inr r
    /\ (forall x, get payload (js "version") = JNum x -> isNaN x = false -> version r = x)
    /\ ((forall x, get payload (js "version") = JNum x -> isNaN x = true) -> version r = one).
Proof.
  intros payload Hp. unfold parseDocument. rewrite Hp.
  eexists. split; [reflexivity|]. cbn [version]. split.
  - intros x Hx Hnan. now rewrite Hx, Hnan.
  - intro H. destruct (get payload (js "version")) as [| |b|x|s|elems props|props];
      try reflexivity.
    now rewrite (H x eq_refl).
Qed.

(** C5: the decoded record carries in [data._doc_id] a non-empty string: the
    [_doc_id] the parsed data already had when that is a non-empty string,
    and the id of the payload otherwise, the id of the payload being a
    non-empty string. *)
Theorem parseDocument_doc_id :
  forall payload pid,
  nullish payload = false -> get payload (js "id") = JStr pid -> pid <> [] ->
  exists r, parseDocument payload = inr r
    /\ (exists s, s <> [] /\ get (data r) (js "_doc_id") = JStr s)
    /\ (forall s, s <> [] ->
          get (decodeData (get payload (js "data"))) (js "_doc_id") = JStr s ->
          get (data r) (js "_doc_id") = JStr s)
    /\ ((forall s, get (decodeData (get payload (js "data"))) (js "_doc_id") = JStr s
                   -> s = [])
        -> get (data r) (js "_doc_id") = JStr pid).
Proof.
  intros payload pid Hp Hid Hne.
  destruct (parseDocument_data payload Hp) as (r & docId & Hr & Hdata & Hkeep & Hfall).
  exists r. split; [exact Hr|].
  assert (Hget : get (data r) (js "_doc_id") = docId).
  { rewrite Hdata. apply get_set_same, decodeData_objectLike. }
  rewrite Hget. split; [|split].
  - destruct (get (decodeData (get payload (js "data"))) (js "_doc_id"))
      as [| |b|x|s|elems props|props] eqn:E;
      try (exists pid; split; [exact Hne|]; rewrite <- Hid; apply Hfall;
           intros s' Hs'; discriminate).
    destruct s as [|c s].
    + exists pid. split; [exact Hne|]. rewrite <- Hid. apply Hfall.
      intros s' Hs'. now injection Hs' as <-.
    + exists (c :: s). split; [discriminate|]. now apply Hkeep.
  - intros s Hs Hd. now apply Hkeep.
  - intro H. rewrite <- Hid. now apply Hfall.
Qed.

(** The decoded data string is an object, or it is the array that the
    string parses to. *)
Lemma decodeData_cases :
  forall payload_data,
  (exists props, decodeData payload_data = JObj props)
  \/ (truthy payload_data = true
      /\ exists elems props,
           JSON_parse_value payload_data = Some (JArr elems props)
           /\ decodeData payload_data = JArr elems props).
Proof.
  intro pd. unfold decodeData.
  destruct (truthy pd); [|left; now exists []].
  destruct (JSON_parse_value pd) as [v|]; [|left; now eexists].
  destruct v as [| |[|]|x|s|elems props|props]; simpl; rewrite ?orb_true_r;
    try (left; now eexists).
  right. split; [reflexivity|]. now exists elems, props.
Qed.

(** C4, amended: the [data] of the decoded record is never null, and it is a
    JSON object whenever the data string does not parse to an array; it is
    the empty object with the internal id when the payload has no data
    string, the object holding the original string under [_raw] with the
    internal id when the string does not parse, and the empty object with
    the internal id, without a [_raw] key, when the string parses to null or
    to a boolean, a number or a string. *)
Theorem parseDocument_data_object :
  forall payload, nullish payload = false ->
  exists r, parseDocument payload = inr r
    /\ typeof_object (data r) = true
    /\ data r <> JNull
    /\ ((forall elems props,
          truthy (get payload (js "data")) = true ->
          JSON_parse_value (get payload (js "data")) <> Some (JArr elems props)) ->
        exists props, data r = JObj props)
    /\ (truthy (get payload (js "data")) = false ->
        data r = JObj [(js "_doc_id", get payload (js "id"))])
    /\ (forall s, get payload (js "data") = JStr s -> s <> [] -> JSON_parse s = None ->
        data r = JObj [(js "_raw", JStr s); (js "_doc_id", get payload (js "id"))])
    /\ (forall s v, get payload (js "data") = JStr s -> s <> [] ->
        JSON_parse s = Some v -> objectLike v = false ->
        data r = JObj [(js "_doc_id", get payload (js "id"))]).
Proof.
  intros payload Hp.
  destruct (parseDocument_data payload Hp) as (r & docId & Hr & Hdata & Hkeep & Hfall).
  exists r. split; [exact Hr|].
  assert (Hobj : objectLike (data r) = true).
  { rewrite Hdata, objectLike_set. apply decodeData_objectLike. }
  split; [destruct (data r); try discriminate; reflexivity|].
  split; [intro E; rewrite E in Hobj; discriminate|].
  split; [|split; [|split]].
  - intro Hnoarray.
    destruct (decodeData_cases (get payload (js "data")))
      as [(props & Hd)|(Ht & elems & props & Hparse & _)].
    + rewrite Hdata, Hd. cbn [set]. now eexists.
    + now destruct (Hnoarray elems props Ht).
  - intro Habsent. rewrite (decodeData_absent _ Habsent) in *.
    rewrite Hdata, Hfall; [reflexivity|]. intros s Hs. discriminate.
  - intros s Hs Hne Hparse. rewrite Hs in *.
    rewrite (decodeData_unparseable Hne Hparse) in *.
    rewrite Hdata, Hfall; [reflexivity|]. intros s' Hs'. discriminate.
  - intros s v Hs Hne Hparse Hv. rewrite Hs in *.
    rewrite (decodeData_not_object Hne Hparse Hv) in *.
    rewrite Hdata, Hfall; [reflexivity|]. intros s' Hs'. discriminate.
Qed.

End CodecFacts.

(** ** Request executor and offline queue *)

Section ExecutorFacts.
Context {R : Runtime}.
Import Fields.TinyDB.

(** [requestInternal] makes one call to the transport once the URL is built,
    and queues the request exactly under the condition of line 614. *)
Lemma requestInternal_run :
  forall self options w u,
  buildURL (endpoint self) (RequestOptions.path options) (RequestOptions.query options)
    = Some u ->
  let i := TinyDB.requestInit self options in
  let queued := mkQueuedOperation u i (TinyDB.requestParser options) in
  TinyDB.requestInternal self options w =
    match exchange self (TinyDB.requestParser options) (calls w) u i with
    | inr v => (inr v, sent w u i)
    | inl e =>
        if TinyDB.queueable self options e then
          (inl (OfflineError (js "Request queued while offline") queued),
           {| offlineQueue := offlineQueue w ++ [queued]; calls := calls w ++ [(u, i)] |})
        else (inl e, sent w u i)
    end.
Proof.
  intros self options w u Hu i queued.
  unfold TinyDB.requestInternal. rewrite Hu.
  unfold try_catch, bind, Async.fetch, lift, throw, push, exchange, sent.
  fold i. fold queued.
  destruct (fetchImpl self (calls w) u i) as [e|response]; cbn.
  - destruct (TinyDB.queueable self options e); reflexivity.
  - destruct (ok response); cbn.
    + destruct (TinyDB.requestParser options response) as [e|v]; cbn; [|reflexivity].
      destruct (TinyDB.queueable self options e); reflexivity.
    + destruct (parseError response) as [e|e]; cbn;
        destruct (TinyDB.queueable self options e); reflexivity.
Qed.

(** Without a URL there is no call. *)
Lemma requestInternal_no_url :
  forall self options w,
  buildURL (endpoint self) (RequestOptions.path options) (RequestOptions.query options)
    = None ->
  TinyDB.requestInternal self options w = (inl TinyDB.invalidURL, w).
Proof.
  intros self options w Hu. unfold TinyDB.requestInternal. now rewrite Hu.
Qed.

(** C2: in offline mode, a request that is not a GET, that allows queuing and
    whose call to the transport fails with a network-classified error is
    queued once, at the tail of the queue, with the URL, method, headers,
    body and parser of the request; the call rejects with an [OfflineError]
    carrying that operation, and the transport has been called once. *)
Theorem requestInternal_queues_network_failure :
  forall self options w u e,
  offlineMode self = true ->
  RequestOptions.allowOfflineQueue options = true ->
  JSString.eqb (RequestOptions.method options) (js "GET") = false ->
  buildURL (endpoint self) (RequestOptions.path options) (RequestOptions.query options)
    = Some u ->
  fetchImpl self (calls w) u (TinyDB.requestInit self options) = inl e ->
  isNetworkError e = true ->
  exists queued,
    TinyDB.requestInternal self options w =
      (inl (OfflineError (js "Request queued while offline") queued),
       {| offlineQueue := offlineQueue w ++ [queued];
          calls := calls w ++ [(u, TinyDB.requestInit self options)] |})
    /\ url queued = u
    /\ method (init queued) = RequestOptions.method options
    /\ headers (init queued) = fst (TinyDB.prepare self options)
    /\ body (init queued) = snd (TinyDB.prepare self options)
    /\ parser queued = TinyDB.requestParser options.
Proof.
  intros self options w u e Hoff Hallow Hget Hu Hfetch Hnet.
  exists (mkQueuedOperation u (TinyDB.requestInit self options) (TinyDB.requestParser options)).
  split; [|repeat split].
  rewrite (requestInternal_run self options w Hu). cbv zeta.
  unfold exchange. rewrite Hfetch.
  unfold TinyDB.queueable. now rewrite Hoff, Hallow, Hget, Hnet.
Qed.

(** A response with a non-success status whose error is not queueable
    rejects with the error that [parseError] builds, and queues nothing. *)
Lemma requestInternal_http_error :
  forall self options w u response error,
  buildURL (endpoint self) (RequestOptions.path options) (RequestOptions.query options)
    = Some u ->
  fetchImpl self (calls w) u (TinyDB.requestInit self options) = inr response ->
  ok response = false ->
  parseError response = inr error ->
  TinyDB.queueable self options error = false ->
  TinyDB.requestInternal self options w
    = (inl error, sent w u (TinyDB.requestInit self options)).
Proof.
  intros self options w u response error Hu Hfetch Hok Herr Hq.
  rewrite (requestInternal_run self options w Hu). cbv zeta.
  unfold exchange. rewrite Hfetch, Hok, Herr. cbn [negb]. now rewrite Hq.
Qed.

(** The same response is queued, and the caller told the request is pending,
    as soon as the message taken from the body or the status text matches
    the pattern of [isNetworkError]. *)
Lemma requestInternal_http_error_queued :
  forall self options w u response error,
  buildURL (endpoint self) (RequestOptions.path options) (RequestOptions.query options)
    = Some u ->
  fetchImpl self (calls w) u (TinyDB.requestInit self options) = inr response ->
  ok response = false ->
  parseError response = inr error ->
  TinyDB.queueable self options error = true ->
  let queued := mkQueuedOperation u (TinyDB.requestInit self options)
                                  (TinyDB.requestParser options) in
  TinyDB.requestInternal self options w
    = (inl (OfflineError (js "Request queued while offline") queued),
       {| offlineQueue := offlineQueue w ++ [queued];
          calls := calls w ++ [(u, TinyDB.requestInit self options)] |}).
Proof.
  intros self options w u response error Hu Hfetch Hok Herr Hq.
  rewrite (requestInternal_run self options w Hu). cbv zeta.
  unfold exchange. rewrite Hfetch, Hok, Herr. cbn [negb]. now rewrite Hq.
Qed.

(** One turn of the flush loop: the head is called, and leaves the queue
    only when its replay succeeds. *)
Lemma replay_run :
  forall self operation w,
  TinyDB.replay self operation w =
    match attempt self operation (calls w) with
    | inr _ =>
        (inr tt, {| offlineQueue := tl (offlineQueue w);
                    calls := calls w ++ [request operation] |})
    | inl e => (inl e, sent w (url operation) (init operation))
    end.
Proof.
  intros self operation w.
  unfold TinyDB.replay, attempt, exchange, bind, Async.fetch, lift, throw, ret, shift,
    sent, request.
  destruct (fetchImpl self (calls w) (url operation) (init operation)) as [e|response];
    cbn; [reflexivity|].
  destruct (ok response); cbn.
  - destruct (parser operation response); reflexivity.
  - destruct (parseError response); reflexivity.
Qed.

Lemma flushLoop_fifo :
  forall self q log turns,
  List.length q <= turns ->
  exists done pending res,
    q = done ++ pending
    /\ TinyDB.flushLoop self turns {| offlineQueue := q; calls := log |}
       = Some (res, {| offlineQueue := pending;
                       calls := log ++ List.map request (done ++ firstn 1 pending) |})
    /\ (forall before operation after,
          done = before ++ operation :: after ->
          attempt self operation (log ++ List.map request before) = inr tt)
    /\ match pending with
       | [] => res = inr tt
       | operation :: _ =>
           exists e, res = inl e
             /\ attempt self operation (log ++ List.map request done) = inl e
       end.
Proof.
  intros self q. induction q as [|operation rest IH]; intros log turns Hturns.
  - exists [], [], (inr tt). split; [reflexivity|]. split.
    + destruct turns; cbn; now rewrite app_nil_r.
    + split; [|reflexivity]. intros [|x before] ? ? H; discriminate.
  - destruct turns as [|turns]; [cbn in Hturns; lia|].
    cbn [TinyDB.flushLoop offlineQueue]. rewrite replay_run. cbn [calls offlineQueue tl].
    destruct (attempt self operation log) as [e|[]] eqn:Ha.
    + exists [], (operation :: rest), (inl e). split; [reflexivity|]. split; [reflexivity|].
      split.
      * intros [|x before] ? ? H; discriminate.
      * exists e. split; [reflexivity|]. cbn. now rewrite app_nil_r.
    + destruct (IH (log ++ [request operation]) turns) as
        (done & pending & res & Hq & Hrun & Hdone & Hpending);
        [cbn in Hturns; lia|].
      exists (operation :: done), pending, res. split; [now rewrite Hq|]. split.
      * rewrite Hrun. cbn [List.map app]. now rewrite <- app_assoc.
      * split.
        -- intros [|x before] op after H; cbn in H.
           ++ injection H as <- _. cbn. now rewrite app_nil_r.
           ++ injection H as <- H. cbn [List.map].
              replace (log ++ request operation :: List.map request before)
                with ((log ++ [request operation]) ++ List.map request before)
                by now rewrite <- app_assoc.
              eapply Hdone, H.
        -- destruct pending as [|next pending']; [exact Hpending|].
           destruct Hpending as (e & Hres & He). exists e. split; [exact Hres|].
           cbn [List.map].
           replace (log ++ request operation :: List.map request done)
             with ((log ++ [request operation]) ++ List.map request done)
             by now rewrite <- app_assoc.
           exact He.
Qed.

(** C3: a flush replays the queue from its head, in the order of the queue.
    The operations replayed with success leave the queue one by one; the
    first replay that fails (HTTP error, network error, or parser) keeps its
    operation at the head, stops the flush with that failure, and nothing
    behind it is called; a flush of the empty queue calls nothing and
    succeeds. *)
Theorem flushOfflineQueue_fifo :
  forall self q log,
  TinyDB.flushOfflineQueue self {| offlineQueue := []; calls := log |}
    = Some (inr tt, {| offlineQueue := []; calls := log |})
  /\ exists done pending res,
       q = done ++ pending
       /\ TinyDB.flushOfflineQueue self {| offlineQueue := q; calls := log |}
          = Some (res, {| offlineQueue := pending;
                          calls := log ++ List.map request (done ++ firstn 1 pending) |})
       /\ (forall before operation after,
             done = before ++ operation :: after ->
             attempt self operation (log ++ List.map request before) = inr tt)
       /\ match pending with
          | [] => res = inr tt
          | operation :: _ =>
              exists e, res = inl e
                /\ attempt self operation (log ++ List.map request done) = inl e
          end.
Proof.
  intros self q log. split.
  - reflexivity.
  - unfold TinyDB.flushOfflineQueue. cbn [offlineQueue].
    apply flushLoop_fifo. apply le_n.
Qed.

End ExecutorFacts.

(** ** Collection facade *)

Section FacadeFacts.
Context {R : Runtime}.
Import Fields.CollectionClient.

(** Whatever it yields, a request adds at most its own call to the log. *)
Lemma requestInternal_calls :
  forall self options w res w',
  TinyDB.requestInternal self options w = (res, w') ->
  match buildURL (Fields.TinyDB.endpoint self) (RequestOptions.path options)
                 (RequestOptions.query options) with
  | Some u => calls w' = calls w ++ [(u, TinyDB.requestInit self options)]
  | None => calls w' = calls w /\ res = inl TinyDB.invalidURL
  end.
Proof.
  intros self options w res w' H.
  destruct (buildURL _ _ _) as [u|] eqn:Hu.
  - rewrite (requestInternal_run self options w Hu) in H. cbv zeta in H.
    destruct (exchange _ _ _ _ _) as [e|v]; [destruct (TinyDB.queueable _ _ _)|];
      injection H as _ <-; reflexivity.
  - rewrite (requestInternal_no_url self options w Hu) in H.
    injection H as <- <-. now split.
Qed.

Lemma forEach_stops :
  forall (A : Type) (f : A -> M unit) pre x post w w1 e w2,
  forEach f pre w = (inr tt, w1) ->
  f x w1 = (inl e, w2) ->
  forEach f (pre ++ x :: post) w = (inl e, w2).
Proof.
  intros A f pre. induction pre as [|y pre IH]; intros x post w w1 e w2 Hpre Hx.
  - cbn in Hpre. injection Hpre as <-. cbn. unfold bind. now rewrite Hx.
  - cbn in Hpre |- *. unfold bind in Hpre |- *.
    destruct (f y w) as [[e'|[]] wy]; [discriminate|]. eauto.
Qed.

Lemma forEach_calls :
  forall (A : Type) (f : A -> M unit) (callOf : A -> option call),
  (forall x w w', f x w = (inr tt, w') ->
     exists c, callOf x = Some c /\ calls w' = calls w ++ [c]) ->
  forall l w w', forEach f l w = (inr tt, w') ->
  exists cs, Forall2 (fun x c => callOf x = Some c) l cs /\ calls w' = calls w ++ cs.
Proof.
  intros A f callOf Hone l. induction l as [|x l IH]; intros w w' H.
  - cbn in H. injection H as <-. exists []. split; [constructor|now rewrite app_nil_r].
  - cbn in H. unfold bind in H.
    destruct (f x w) as [[e|[]] wx] eqn:Hx; [discriminate|].
    destruct (Hone _ _ _ Hx) as (c & Hc & Hcalls).
    destruct (IH _ _ H) as (cs & Hcs & Hrest).
    exists (c :: cs). split; [now constructor|].
    rewrite Hrest, Hcalls. now rewrite <- app_assoc.
Qed.

(** A request of the facade whose result is dropped. *)
Lemma request_calls :
  forall (self : t) (path : option jsstring) (options : jsstring -> RequestOptions.t) w res w',
  match path with
  | None => throw TinyDB.uriMalformed
  | Some p => _ <- TinyDB.requestInternal (client self) (options p) ;; ret tt
  end w = (res, w') ->
  (res = inr tt ->
   exists c, CollectionClient.callOf self path options = Some c /\ calls w' = calls w ++ [c])
  /\ (calls w' = calls w
      \/ exists c, CollectionClient.callOf self path options = Some c
                   /\ calls w' = calls w ++ [c]).
Proof.
  intros self [p|] options w res w' H; unfold CollectionClient.callOf.
  - unfold bind, ret in H.
    destruct (TinyDB.requestInternal (client self) (options p) w) as [r wr] eqn:Hr.
    apply requestInternal_calls in Hr.
    destruct (buildURL _ _ _) as [u|].
    + assert (Hw : calls w' = calls w ++ [(u, TinyDB.requestInit (client self) (options p))]).
      { destruct r; injection H as _ <-; exact Hr. }
      split; [intros _|right]; (eexists; split; [reflexivity|exact Hw]).
    + destruct Hr as [Hcalls ->]. injection H as <- <-.
      split; [discriminate|now left].
  - unfold throw in H. injection H as <- <-. split; [discriminate|now left].
Qed.

Lemma deleteOne_calls :
  forall self id w res w',
  CollectionClient.deleteOne self id w = (res, w') ->
  (res = inr tt ->
   exists c, CollectionClient.deleteCall self id = Some c /\ calls w' = calls w ++ [c])
  /\ (calls w' = calls w
      \/ exists c, CollectionClient.deleteCall self id = Some c
                   /\ calls w' = calls w ++ [c]).
Proof.
  intros self id w res w' H.
  exact (request_calls self _ CollectionClient.deleteRequest w H).
Qed.

Lemma purgeOne_calls :
  forall self id w res w',
  CollectionClient.purgeOne self id w = (res, w') ->
  (res = inr tt ->
   exists c, CollectionClient.purgeCall self id = Some c /\ calls w' = calls w ++ [c])
  /\ (calls w' = calls w
      \/ exists c, CollectionClient.purgeCall self id = Some c
                   /\ calls w' = calls w ++ [c]).
Proof.
  intros self id w res w' H.
  exact (request_calls self _ CollectionClient.purgeRequest w H).
Qed.

(** The URL of a purge is built by setting [confirm] to [true]. *)
Lemma purgeCall_confirm :
  forall self id c,
  CollectionClient.purgeCall self id = Some c ->
  method (snd c) = js "DELETE"
  /\ exists u0, fst c = URL_toString (searchParams_set u0 (js "confirm") (js "true")).
Proof.
  intros self id c. unfold CollectionClient.purgeCall, CollectionClient.callOf.
  destruct (CollectionClient.documentPath self id (js "/purge")) as [path|]; [|discriminate].
  unfold buildURL. cbn [RequestOptions.path RequestOptions.query CollectionClient.purgeRequest].
  destruct (new_URL _) as [u0|]; [|discriminate].
  intro H. injection H as <-. split; [reflexivity|]. now exists u0.
Qed.

(** C8: a batch delete or purge handles the identifiers one after the other,
    in the order of the list.  When the one for the k-th identifier fails,
    the requests of the identifiers before it have been made, in order, the
    failure is the one the caller gets, and nothing is called for the
    identifiers behind it; every purge request has [confirm=true] in its
    URL. *)
Theorem delete_purge_in_order :
  forall self pre id post w w1 e w2,
  (CollectionClient.delete self (inr pre) w = (inr tt, w1) ->
   CollectionClient.delete self (inl id) w1 = (inl e, w2) ->
   CollectionClient.delete self (inr (pre ++ id :: post)) w = (inl e, w2)
   /\ (exists cs, Forall2 (fun i c => CollectionClient.deleteCall self i = Some c) pre cs
                  /\ calls w1 = calls w ++ cs)
   /\ (calls w2 = calls w1
       \/ exists c, CollectionClient.deleteCall self id = Some c
                    /\ calls w2 = calls w1 ++ [c]))
  /\ (CollectionClient.purge self (inr pre) w = (inr tt, w1) ->
      CollectionClient.purge self (inl id) w1 = (inl e, w2) ->
      CollectionClient.purge self (inr (pre ++ id :: post)) w = (inl e, w2)
      /\ (exists cs, Forall2 (fun i c => CollectionClient.purgeCall self i = Some c) pre cs
                     /\ calls w1 = calls w ++ cs)
      /\ (calls w2 = calls w1
          \/ exists c, CollectionClient.purgeCall self id = Some c
                       /\ calls w2 = calls w1 ++ [c]))
  /\ (forall i c, CollectionClient.purgeCall self i = Some c ->
      method (snd c) = js "DELETE"
      /\ exists u0, fst c = URL_toString (searchParams_set u0 (js "confirm") (js "true"))).
Proof.
  intros self pre id post w w1 e w2. split; [|split].
  - cbn [CollectionClient.delete]. intros Hpre Hid. split; [|split].
    + eapply forEach_stops; eassumption.
    + eapply forEach_calls; [|exact Hpre].
      intros x wa wb Hx. now apply (deleteOne_calls self x wa Hx).
    + apply (deleteOne_calls self id w1 Hid).
  - cbn [CollectionClient.purge]. intros Hpre Hid. split; [|split].
    + eapply forEach_stops; eassumption.
    + eapply forEach_calls; [|exact Hpre].
      intros x wa wb Hx. now apply (purgeOne_calls self x wa Hx).
    + apply (purgeOne_calls self id w1 Hid).
  - apply purgeCall_confirm.
Qed.

(** C9: [create] on the empty array resolves with the empty list and leaves
    the world as it was, the transport uncalled and the queue untouched; on a
    non-empty array it makes one call, a POST of the serialized array to the
    bulk endpoint of the collection. *)
Theorem create_batch_calls :
  forall self props w,
  CollectionClient.create self (JArr [] props) w
    = (inr (CollectionClient.Documents []), w)
  /\ (forall doc docs encoded u,
     encodeURIComponent (name self) = Some encoded ->
     buildURL (Fields.TinyDB.endpoint (client self))
              (js "/api/collections/" ++ encoded ++ js "/documents/bulk") None = Some u ->
     exists res w' i,
       CollectionClient.create self (JArr (doc :: docs) props) w = (res, w')
       /\ calls w' = calls w ++ [(u, i)]
       /\ method i = js "POST"
       /\ body i = Some (BodyText (JSON_stringify (JArr (doc :: docs) props))))
  /\ forall doc docs res w',
     CollectionClient.create self (JArr (doc :: docs) props) w = (res, w') ->
     calls w' = calls w \/ exists c, calls w' = calls w ++ [c].
Proof.
  intros self props w. split; [reflexivity|]. split.
  2:{ intros doc docs res w' Hc. cbn [CollectionClient.create] in Hc.
      destruct (CollectionClient.documentsPath self (js "/bulk")) as [path|].
      - unfold bind, lift, ret in Hc.
        destruct (TinyDB.requestInternal _ _ w) as [r wr] eqn:Hr.
        apply requestInternal_calls in Hr.
        assert (Hw : wr = w').
        { destruct r as [e'|response]; [now injection Hc|].
          destruct (TinyDB.arrayMap _ _ _); now injection Hc. }
        subst wr. destruct (buildURL _ _ _); [right; eauto|left; tauto].
      - unfold throw in Hc. injection Hc as _ <-. now left. }
  intros doc docs encoded u Henc Hu.
  set (path := js "/api/collections/" ++ encoded ++ js "/documents/bulk") in *.
  set (options := CollectionClient.createRequest path (JArr (doc :: docs) props)).
  assert (Hpath : CollectionClient.documentsPath self (js "/bulk") = Some path).
  { unfold CollectionClient.documentsPath. rewrite Henc. reflexivity. }
  destruct (CollectionClient.create self (JArr (doc :: docs) props) w) as [res w'] eqn:Hc.
  exists res, w', (TinyDB.requestInit (client self) options).
  split; [reflexivity|]. split; [|split; reflexivity].
  cbn [CollectionClient.create] in Hc. rewrite Hpath in Hc.
  unfold bind, lift, ret in Hc. fold options in Hc.
  destruct (TinyDB.requestInternal (client self) options w) as [r wr] eqn:Hr.
  apply requestInternal_calls in Hr.
  change (RequestOptions.path options) with path in Hr.
  change (RequestOptions.query options) with (@None (list (jsstring * option jsstring))) in Hr.
  rewrite Hu in Hr.
  destruct r as [e'|response]; [injection Hc as _ <-; exact Hr|].
  destruct (TinyDB.arrayMap _ _ _); injection Hc as _ <-; exact Hr.
Qed.

End FacadeFacts.

(** ** Collection resolver *)

Section ResolverFacts.
Context {R : Runtime}.
Import Fields.TinyDB.






Lemma describeCollection_run :
  forall self name w listings w',
  TinyDB.collections self w = (inr listings, w') ->
  TinyDB.describeCollection self name w =
    match TinyDB.find (toLowerCase name) listings with
    | inr (Some col) => (inr col, w')
    | inr None => (inl (TinyDB.collectionNotFound name), w')
    | inl e => (inl e, w')
    end.
Proof.
  intros self name w listings w' H.
  unfold TinyDB.describeCollection, bind. rewrite H. unfold lift.
  destruct (TinyDB.find (toLowerCase name) listings) as [e|[col|]]; reflexivity.
Qed.





Lemma lookup_assign_other :
  forall (A : Type) (k k' : jsstring) (v : A) props,
  JSString.eqb k k' = false -> lookup k' (assign k v props) = lookup k' props.
Proof.
  intros A k k' v props Hk. induction props as [|[k0 v0] rest IH]; cbn.
  - now rewrite Hk.
  - destruct (JSString.eqb k0 k) eqn:E; cbn.
    + apply eqb_eq in E. subst k0. now rewrite Hk.
    + now rewrite IH.
Qed.


(** *** The calls of a computation *)


















End ResolverFacts.

(** * Further properties *)

(** ** Payload codec, continued *)

Section CodecMore.
Context {R : Runtime}.

Lemma assign_lookup_same :
  forall (A : Type) (k : jsstring) (v : A) props,
  lookup k props = Some v -> assign k v props = props.
Proof.
  intros A k v props. induction props as [|[k' v'] rest IH]; cbn; intro H.
  - discriminate.
  - destruct (JSString.eqb k' k) eqn:E.
    + apply eqb_eq in E. subst k'. now injection H as ->.
    + now rewrite IH.
Qed.

(** X1: [parseCollection] never throws on an object: it returns the payload with
    every property but [schema] as it was, and a [schema] that is the parsed
    [schema_json], the string under [_raw] when it does not parse, and
    [undefined] when there is none. *)
Theorem parseCollection_keeps_fields :
  forall props,
  exists col,
    parseCollection (JObj props) = inr (JObj col)
    /\ (forall k, JSString.eqb (js "schema") k = false -> lookup k col = lookup k props)
    /\ (truthy (get (JObj props) (js "schema_json")) = false ->
        lookup (js "schema") col = Some JUndefined)
    /\ (forall s, get (JObj props) (js "schema_json") = JStr s -> s <> [] ->
        JSON_parse s = None ->
        lookup (js "schema") col = Some (JObj [(js "_raw", JStr s)]))
    /\ (forall s v, get (JObj props) (js "schema_json") = JStr s -> s <> [] ->
        JSON_parse s = Some v ->
        lookup (js "schema") col = Some v).
Proof.
  intro props. unfold parseCollection. cbn [nullish ownProperties].
  eexists. split; [reflexivity|]. split; [|split; [|split]].
  - intros k Hk. now apply lookup_assign_other.
  - intro H. rewrite H. apply lookup_assign_same.
  - intros s Hs Hne Hp. rewrite Hs, JSON_parse_value_string, Hp.
    destruct s; [contradiction|]. apply lookup_assign_same.
  - intros s v Hs Hne Hp. rewrite Hs, JSON_parse_value_string, Hp.
    destruct s; [contradiction|]. apply lookup_assign_same.
Qed.

(** X2: a data string that parses to an object or array which already has a
    non-empty string [_doc_id] is decoded to exactly that value: nothing is
    added, replaced or moved. *)
Theorem parseDocument_keeps_identified_data :
  forall payload s d docId,
  nullish payload = false ->
  get payload (js "data") = JStr s -> s <> [] ->
  JSON_parse s = Some d -> objectLike d = true ->
  get d (js "_doc_id") = JStr docId -> docId <> [] ->
  exists r, parseDocument payload = inr r /\ data r = d.
Proof.
  intros payload s d docId Hp Hs Hne Hparse Hobj Hid Hdoc.
  destruct (parseDocument_data payload Hp) as (r & x & Hr & Hdata & Hkeep & _).
  exists r. split; [exact Hr|].
  rewrite Hs, (decodeData_object Hne Hparse Hobj) in *.
  rewrite Hdata, (Hkeep docId Hdoc Hid).
  destruct d as [| |b|n|t|elems props|props]; try discriminate;
    cbn [get] in Hid; cbn [set];
    destruct (lookup (js "_doc_id") props) as [v|] eqn:E; try discriminate;
    subst v; now rewrite (assign_lookup_same _ _ E).
Qed.

Lemma matchesAt_folded :
  forall pattern word rest,
  List.map foldCase word = List.map foldCase pattern ->
  matchesAt pattern (word ++ rest) = true.
Proof.
  induction pattern as [|p pattern IH]; intros word rest H.
  - now destruct word.
  - destruct word as [|c word]; [discriminate|].
    cbn in H. injection H as Hc Hw. cbn.
    rewrite Hc, N.eqb_refl. cbn. now apply IH.
Qed.

Lemma testIgnoreCase_inside :
  forall pattern before word rest,
  List.map foldCase word = List.map foldCase pattern ->
  testIgnoreCase pattern (before ++ word ++ rest) = true.
Proof.
  intros pattern before. induction before as [|c before IH]; intros word rest H.
  - cbn [app]. destruct (word ++ rest) eqn:E; cbn;
      rewrite <- E, (matchesAt_folded pattern word rest H); reflexivity.
  - cbn. rewrite (IH word rest H). apply orb_true_r.
Qed.

(** X3: an [Error], a [TinyDBError] or an [OfflineError] whose message has one of
    the three phrases of the pattern somewhere in it, in any mix of upper
    and lower case, is classified as a network error; so is every
    [TypeError]; a thrown value that is not an [Error] never is, and neither
    is an error with an empty message. *)
Theorem isNetworkError_by_message :
  forall pattern before word rest,
  In pattern [js "network"; js "fetch failed"; js "Failed to fetch"] ->
  List.map foldCase word = List.map foldCase pattern ->
  let message := before ++ word ++ rest in
  isNetworkError (Error message) = true
  /\ (forall status code details,
        isNetworkError (TinyDBError message status code details) = true)
  /\ (forall operation, isNetworkError (OfflineError message operation) = true)
  /\ (forall m, isNetworkError (TypeError m) = true)
  /\ (forall v, isNetworkError (Thrown v) = false)
  /\ isNetworkError (Error []) = false.
Proof.
  intros pattern before word rest Hin Hword message.
  assert (Hpat : networkPattern message = true).
  { unfold networkPattern, message.
    destruct Hin as [<-|[<-|[<-|[]]]];
      rewrite (testIgnoreCase_inside _ before word rest Hword);
      rewrite ?orb_true_r; reflexivity. }
  assert (Hne : message <> []).
  { unfold message. intro E. apply app_eq_nil in E as [_ E].
    apply app_eq_nil in E as [E _]. subst word.
    destruct Hin as [<-|[<-|[<-|[]]]]; discriminate. }
  repeat split; try reflexivity;
    intros; cbn [isNetworkError]; destruct message; try contradiction; exact Hpat.
Qed.

(** X4: when the body of an error response is empty or is not JSON, the error is
    built from the response alone: its message is the status text, or
    [Request failed] when there is none, its status is the status of the
    response, and it has neither code nor details. *)
Theorem parseError_without_payload :
  forall response,
  text response = [] \/ JSON_parse (text response) = None ->
  parseError response
  = inr (TinyDBError
           (match statusText response with
            | [] => js "Request failed"
            | _ :: _ => statusText response
            end)
           (status response) JUndefined JUndefined).
Proof.
  intros response H. unfold parseError.
  assert (Hpayload :
    match text response with
    | [] => JUndefined
    | _ :: _ => match JSON_parse (text response) with
                | Some v => v
                | None => JUndefined
                end
    end = JUndefined).
  { destruct H as [H|H]; [now rewrite H|]. rewrite H. now destruct (text response). }
  rewrite Hpayload. cbn [get_opt nullish or_else truthy].
  unfold or_else. destruct (statusText response); cbn [truthy];
    now rewrite ToString_string.
Qed.

End CodecMore.

(** ** Request executor, continued *)

Section ExecutorMore.
Context {R : Runtime}.
Import Fields.TinyDB.

Lemma replaceTrailingSlash_app :
  forall s by_, replaceTrailingSlash s by_ = replaceTrailingSlash s [] ++ by_.
Proof.
  induction s as [|c rest IH]; intro by_; [reflexivity|].
  cbn. destruct rest as [|c' rest'].
  - now destruct (c =? 47)%N.
  - now rewrite IH.
Qed.

Lemma replaceTrailingSlash_slash :
  forall s, replaceTrailingSlash (s ++ [47%N]) [] = s.
Proof.
  induction s as [|c rest IH]; [reflexivity|].
  destruct rest as [|c' rest']; [reflexivity|].
  change (replaceTrailingSlash ((c :: c' :: rest') ++ [47%N]) [])
    with (c :: replaceTrailingSlash ((c' :: rest') ++ [47%N]) []).
  now rewrite IH.
Qed.

Lemma replaceTrailingSlash_other :
  forall s, last s 0%N <> 47%N -> replaceTrailingSlash s [] = s.
Proof.
  induction s as [|c rest IH]; intro H; [reflexivity|].
  cbn [replaceTrailingSlash]. destruct rest as [|c' rest'].
  - cbn in H. destruct (c =? 47)%N eqn:E; [|reflexivity].
    apply N.eqb_eq in E. contradiction.
  - now rewrite IH.
Qed.

Lemma setParams_defined :
  forall entries u,
  fold_left (fun u kv => match snd kv with
                         | Some v => searchParams_set u (fst kv) v
                         | None => u
                         end) entries u
  = fold_left (fun u kv => match snd kv with
                           | Some v => searchParams_set u (fst kv) v
                           | None => u
                           end) (filter defined entries) u.
Proof.
  induction entries as [|[k [v|]] entries IH]; intro u; cbn; auto.
Qed.

(** X5: the URL of a request is the same with or without a slash at the end of
    the base and at the start of the path; an empty query object and a query
    entry that is [undefined] change nothing. *)
Theorem buildURL_normalizes :
  forall base path query,
  (last base 0%N <> 47%N ->
   buildURL (base ++ js "/") path query = buildURL base path query)
  /\ (startsWithSlash path = false ->
      buildURL base (js "/" ++ path) query = buildURL base path query)
  /\ buildURL base path (Some []) = buildURL base path None
  /\ (forall entries,
        buildURL base path (Some entries)
        = buildURL base path (Some (filter defined entries))).
Proof.
  intros base path query. unfold buildURL. split; [|split; [|split]].
  - intro H. change (js "/") with [47%N].
    now rewrite replaceTrailingSlash_slash, (replaceTrailingSlash_other _ H).
  - intro H. rewrite H. reflexivity.
  - reflexivity.
  - intro entries. destruct (new_URL _); [|reflexivity].
    now rewrite setParams_defined.
Qed.

(** X6: [new TinyDB(options)] throws on an empty endpoint or API key.  The client
    it builds otherwise makes the same URLs as the endpoint that was given,
    with a slash at its end or not, and its base headers are [Accept], the
    API key, and the application id when there is one. *)
Theorem constructor_client :
  forall options,
  (TinyDBOptions.endpoint options = [] ->
   TinyDB.constructor options = inl (Error (js "endpoint is required")))
  /\ (TinyDBOptions.endpoint options <> [] -> TinyDBOptions.apiKey options = [] ->
      TinyDB.constructor options = inl (Error (js "apiKey is required")))
  /\ (forall self, TinyDB.constructor options = inr self ->
      offlineMode self = TinyDBOptions.offlineMode options
      /\ (forall path query,
            buildURL (endpoint self) path query
            = buildURL (TinyDBOptions.endpoint options) path query)
      /\ lookup (js "Accept") (baseHeaders self) = Some (js "application/json")
      /\ lookup (js "X-API-Key") (baseHeaders self) = Some (TinyDBOptions.apiKey options)
      /\ lookup (js "X-App-ID") (baseHeaders self)
         = match TinyDBOptions.appId options with
           | Some a => if TinyDB.nonempty a then Some a else None
           | None => None
           end).
Proof.
  intro options. unfold TinyDB.constructor. split; [|split].
  - intros ->. reflexivity.
  - intros He ->. destruct (TinyDBOptions.endpoint options); [contradiction|reflexivity].
  - intros self.
    destruct (TinyDB.nonempty (TinyDBOptions.endpoint options)); [|discriminate].
    destruct (TinyDB.nonempty (TinyDBOptions.apiKey options)); [|discriminate].
    cbn [negb]. destruct (TinyDB.ensureFetch _) as [e|f]; [discriminate|].
    intro H. injection H as <-. cbn [offlineMode endpoint baseHeaders].
    split; [reflexivity|]. split.
    + intros path query. unfold buildURL.
      rewrite (replaceTrailingSlash_app (TinyDBOptions.endpoint options) (js "/")).
      change (js "/") with [47%N]. now rewrite replaceTrailingSlash_slash.
    + destruct (TinyDBOptions.appId options) as [a|]; [destruct (TinyDB.nonempty a)|];
        repeat split; try reflexivity;
        try (rewrite lookup_assign_other by reflexivity; reflexivity).
Qed.





Lemma queueable_closed :
  forall self options,
  offlineMode self = false
  \/ RequestOptions.allowOfflineQueue options = false
  \/ RequestOptions.method options = js "GET" ->
  forall e, TinyDB.queueable self options e = false.
Proof.
  intros self options Hgate e. unfold TinyDB.queueable.
  destruct Hgate as [ -> | [ -> | -> ] ]; [reflexivity|now rewrite andb_false_r|].
  rewrite eqb_refl. cbn [negb]. now rewrite andb_false_r.
Qed.

Lemma requestInternal_closed_run :
  forall self options,
  offlineMode self = false
  \/ RequestOptions.allowOfflineQueue options = false
  \/ RequestOptions.method options = js "GET" ->
  forall w u,
  buildURL (endpoint self) (RequestOptions.path options) (RequestOptions.query options)
    = Some u ->
  TinyDB.requestInternal self options w
  = (exchange self (TinyDB.requestParser options) (calls w) u
       (TinyDB.requestInit self options),
     sent w u (TinyDB.requestInit self options)).
Proof.
  intros self options Hgate w u Hu.
  rewrite (requestInternal_run self options w Hu). cbv zeta.
  destruct (exchange _ _ _ _ _) as [e|v]; [|reflexivity].
  now rewrite (queueable_closed self options Hgate).
Qed.

Lemma requestInternal_closed :
  forall self options,
  offlineMode self = false
  \/ RequestOptions.allowOfflineQueue options = false
  \/ RequestOptions.method options = js "GET" ->
  keepsQueue (TinyDB.requestInternal self options).
Proof.
  intros self options Hgate w res w' H.
  destruct (buildURL (endpoint self) (RequestOptions.path options)
              (RequestOptions.query options)) as [u|] eqn:Hu.
  - rewrite (requestInternal_closed_run self options Hgate w Hu) in H.
    now injection H as _ <-.
  - rewrite (requestInternal_no_url self options w Hu) in H. now injection H as _ <-.
Qed.

(** X8: a request of a client that is not in offline mode, a request that does
    not allow queuing, and a GET never change the offline queue, and reject
    with the failure of the exchange as it is. *)
Theorem requestInternal_not_queued :
  forall self options,
  offlineMode self = false
  \/ RequestOptions.allowOfflineQueue options = false
  \/ RequestOptions.method options = js "GET" ->
  keepsQueue (TinyDB.requestInternal self options)
  /\ forall w u,
     buildURL (endpoint self) (RequestOptions.path options) (RequestOptions.query options)
       = Some u ->
     TinyDB.requestInternal self options w
     = (exchange self (TinyDB.requestParser options) (calls w) u
          (TinyDB.requestInit self options),
        sent w u (TinyDB.requestInit self options)).
Proof.
  intros self options Hgate. split.
  - now apply requestInternal_closed.
  - now apply requestInternal_closed_run.
Qed.

(** In offline mode, a request that allows queuing and is not a GET, and
    whose call fails with a network error, rejects as queued. *)
Lemma requestInternal_offline :
  forall self options w u e,
  offlineMode self = true ->
  RequestOptions.allowOfflineQueue options = true ->
  JSString.eqb (RequestOptions.method options) (js "GET") = false ->
  buildURL (endpoint self) (RequestOptions.path options) (RequestOptions.query options)
    = Some u ->
  fetchImpl self (calls w) u (TinyDB.requestInit self options) = inl e ->
  isNetworkError e = true ->
  queuedAs (RequestOptions.method options) u (TinyDB.requestInternal self options) w.
Proof.
  intros self options w u e Hoff Hallow Hget Hu Hfetch Hnet.
  exists (mkQueuedOperation u (TinyDB.requestInit self options)
            (TinyDB.requestParser options)).
  split; [|split; reflexivity].
  rewrite (requestInternal_run self options w Hu). cbv zeta.
  unfold exchange. rewrite Hfetch.
  unfold TinyDB.queueable. now rewrite Hoff, Hallow, Hget, Hnet.
Qed.

(** X9: a request adds one operation at most to the offline queue, at its tail,
    and removes none.  When it adds one, the client is in offline mode, the
    request allows queuing and is not a GET, the caller gets the
    [OfflineError] that carries the operation, and the operation is the call
    that was just made. *)
Theorem requestInternal_queue_growth :
  forall self options w res w',
  TinyDB.requestInternal self options w = (res, w') ->
  offlineQueue w' = offlineQueue w
  \/ exists queued,
       offlineQueue w' = offlineQueue w ++ [queued]
       /\ res = inl (OfflineError (js "Request queued while offline") queued)
       /\ calls w' = calls w ++ [request queued]
       /\ init queued = TinyDB.requestInit self options
       /\ offlineMode self = true
       /\ RequestOptions.allowOfflineQueue options = true
       /\ JSString.eqb (RequestOptions.method options) (js "GET") = false.
Proof.
  intros self options w res w' H.
  destruct (buildURL (endpoint self) (RequestOptions.path options)
              (RequestOptions.query options)) as [u|] eqn:Hu.
  - rewrite (requestInternal_run self options w Hu) in H. cbv zeta in H.
    destruct (exchange _ _ _ _ _) as [e|v].
    + destruct (TinyDB.queueable self options e) eqn:Hq.
      * right. injection H as <- <-. eexists. split; [reflexivity|].
        unfold TinyDB.queueable in Hq.
        apply andb_true_iff in Hq as [Hq _]. apply andb_true_iff in Hq as [Hq Hget].
        apply andb_true_iff in Hq as [Hoff Hallow].
        apply negb_true_iff in Hget. repeat split; assumption.
      * left. now injection H as _ <-.
    + left. now injection H as _ <-.
  - left. rewrite (requestInternal_no_url self options w Hu) in H. now injection H as _ <-.
Qed.

(** X10: a success response read with the default parser: status 204 or an empty
    body resolve with [undefined]; a body that is JSON resolves with its
    value; a body that is not rejects with [Failed to parse JSON response],
    which is never queued, in offline mode either. *)
Theorem requestInternal_success_body :
  forall self options w u response,
  buildURL (endpoint self) (RequestOptions.path options) (RequestOptions.query options)
    = Some u ->
  RequestOptions.parser options = None ->
  fetchImpl self (calls w) u (TinyDB.requestInit self options) = inr response ->
  ok response = true ->
  let after := sent w u (TinyDB.requestInit self options) in
  (status response = 204%Z \/ text response = [] ->
   TinyDB.requestInternal self options w = (inr JUndefined, after))
  /\ (forall v, status response <> 204%Z -> text response <> [] ->
        JSON_parse (text response) = Some v ->
        TinyDB.requestInternal self options w = (inr v, after))
  /\ (status response <> 204%Z -> text response <> [] ->
      JSON_parse (text response) = None ->
      TinyDB.requestInternal self options w
      = (inl (Error (js "Failed to parse JSON response")), after)).
Proof.
  intros self options w u response Hu Hparser Hfetch Hok after.
  assert (Hrun : forall r,
    jsonParser response = r ->
    (forall e, r = inl e -> TinyDB.queueable self options e = false) ->
    TinyDB.requestInternal self options w = (r, after)).
  { intros r Hr Hq. rewrite (requestInternal_run self options w Hu). cbv zeta.
    unfold exchange, TinyDB.requestParser. rewrite Hfetch, Hok, Hparser. cbn [negb].
    rewrite Hr. destruct r as [e|v]; [now rewrite (Hq e eq_refl)|reflexivity]. }
  split; [|split].
  - intro H. apply Hrun; [|discriminate]. unfold jsonParser.
    destruct H as [ -> | -> ]; [reflexivity|]. now destruct (status response =? 204)%Z.
  - intros v Hs Ht Hp. apply Hrun; [|discriminate]. unfold jsonParser.
    apply Z.eqb_neq in Hs. rewrite Hs, Hp. now destruct (text response).
  - intros Hs Ht Hp. apply Hrun.
    + unfold jsonParser. apply Z.eqb_neq in Hs. rewrite Hs, Hp.
      now destruct (text response).
    + intros e He. injection He as <-. unfold TinyDB.queueable.
      apply andb_false_r.
Qed.

(** X11: a request that was queued in an empty queue is replayed by the next
    flush with the URL, method, headers and body it had.  When the replay
    succeeds the queue is empty again; when it fails the operation is still
    the only one queued, and the flush rejects with that failure. *)
Theorem queued_request_is_replayed :
  forall self options w u e,
  offlineMode self = true ->
  RequestOptions.allowOfflineQueue options = true ->
  JSString.eqb (RequestOptions.method options) (js "GET") = false ->
  buildURL (endpoint self) (RequestOptions.path options) (RequestOptions.query options)
    = Some u ->
  fetchImpl self (calls w) u (TinyDB.requestInit self options) = inl e ->
  isNetworkError e = true ->
  offlineQueue w = [] ->
  let i := TinyDB.requestInit self options in
  exists queued w1,
    TinyDB.requestInternal self options w
      = (inl (OfflineError (js "Request queued while offline") queued), w1)
    /\ request queued = (u, i)
    /\ (forall v,
          exchange self (TinyDB.requestParser options) (calls w ++ [(u, i)]) u i = inr v ->
          TinyDB.flushOfflineQueue self w1
          = Some (inr tt, {| offlineQueue := []; calls := (calls w ++ [(u, i)]) ++ [(u, i)] |}))
    /\ (forall e',
          exchange self (TinyDB.requestParser options) (calls w ++ [(u, i)]) u i = inl e' ->
          TinyDB.flushOfflineQueue self w1
          = Some (inl e', {| offlineQueue := [queued];
                             calls := (calls w ++ [(u, i)]) ++ [(u, i)] |})).
Proof.
  intros self options w u e Hoff Hallow Hget Hu Hfetch Hnet Hempty i. subst i.
  exists (mkQueuedOperation u (TinyDB.requestInit self options)
            (TinyDB.requestParser options)).
  eexists. split; [|split; [reflexivity|]].
  - rewrite (requestInternal_run self options w Hu). cbv zeta.
    unfold exchange. rewrite Hfetch.
    unfold TinyDB.queueable. rewrite Hoff, Hallow, Hget, Hnet. reflexivity.
  - rewrite Hempty. unfold TinyDB.flushOfflineQueue.
    cbn [offlineQueue app List.length TinyDB.flushLoop].
    rewrite replay_run. unfold attempt. cbn [calls url init parser offlineQueue tl].
    split.
    + intros v Hv. rewrite Hv. reflexivity.
    + intros e' He'. rewrite He'. reflexivity.
Qed.

End ExecutorMore.

(** ** Computations that keep the queue *)

Section QueueKept.
Context {R : Runtime}.
Import Fields.TinyDB.

Lemma pure_lift : forall (A : Type) (r : result A), pure (lift r).
Proof. intros A r w res w' H. now injection H as _ <-. Qed.

Lemma pure_ret : forall (A : Type) (a : A), pure (ret a).
Proof. intros A a w res w' H. now injection H as _ <-. Qed.

Lemma pure_throw : forall (A : Type) (e : exn), pure (@throw A e).
Proof. intros A e w res w' H. now injection H as _ <-. Qed.

Lemma pure_keepsQueue : forall (A : Type) (m : M A), pure m -> keepsQueue m.
Proof. intros A m Hm w res w' H. now rewrite (Hm w res w' H). Qed.

Lemma keepsQueue_bind :
  forall (A B : Type) (m : M A) (k : A -> M B),
  keepsQueue m -> (forall a, keepsQueue (k a)) -> keepsQueue (bind m k).
Proof.
  intros A B m k Hm Hk w res w' H. unfold bind in H.
  destruct (m w) as [[e|a] w1] eqn:E.
  - injection H as _ <-. exact (Hm w _ _ E).
  - rewrite (Hk a w1 res w' H). exact (Hm w _ _ E).
Qed.

Lemma keepsQueue_try_catch :
  forall (A : Type) (m : M A) (handler : exn -> M A),
  keepsQueue m -> (forall e, keepsQueue (handler e)) -> keepsQueue (try_catch m handler).
Proof.
  intros A m handler Hm Hh w res w' H. unfold try_catch in H.
  destruct (m w) as [[e|a] w1] eqn:E.
  - rewrite (Hh e w1 res w' H). exact (Hm w _ _ E).
  - injection H as _ <-. exact (Hm w _ _ E).
Qed.

Lemma callsOnceAtMost_then_pure :
  forall (A B : Type) (m : M A) (k : A -> M B),
  callsOnceAtMost m -> (forall a, pure (k a)) -> callsOnceAtMost (bind m k).
Proof.
  intros A B m k Hm Hk w res w' H. unfold bind in H.
  destruct (m w) as [[e|a] w1] eqn:E.
  - injection H as _ <-. exact (Hm w _ _ E).
  - rewrite (Hk a w1 res w' H). exact (Hm w _ _ E).
Qed.

Lemma pure_callsOnceAtMost : forall (A : Type) (m : M A), pure m -> callsOnceAtMost m.
Proof. intros A m Hm w res w' H. left. now rewrite (Hm w res w' H). Qed.

Lemma requestInternal_once :
  forall self options, callsOnceAtMost (TinyDB.requestInternal self options).
Proof.
  intros self options w res w' H. apply requestInternal_calls in H.
  destruct (buildURL _ _ _); [right; eauto|left; tauto].
Qed.

Lemma readOnly_then_pure :
  forall (A B : Type) (m : M A) (k : A -> M B),
  readOnly m -> (forall a, pure (k a)) -> readOnly (bind m k).
Proof.
  intros A B m k [Hq Hc] Hk. split.
  - apply keepsQueue_bind; [exact Hq|]. intro a. apply pure_keepsQueue, Hk.
  - now apply callsOnceAtMost_then_pure.
Qed.

Lemma readOnly_pure : forall (A : Type) (m : M A), pure m -> readOnly m.
Proof.
  intros A m Hm. split; [now apply pure_keepsQueue|now apply pure_callsOnceAtMost].
Qed.

Lemma readOnly_request :
  forall self options,
  RequestOptions.allowOfflineQueue options = false ->
  readOnly (TinyDB.requestInternal self options).
Proof.
  intros self options H. split.
  - apply requestInternal_closed. auto.
  - apply requestInternal_once.
Qed.

Lemma readOnly_collections : forall self, readOnly (TinyDB.collections self).
Proof.
  intro self. unfold TinyDB.collections.
  apply readOnly_then_pure; [now apply readOnly_request|]. intro a. apply pure_lift.
Qed.

Lemma readOnly_describeCollection :
  forall self name, readOnly (TinyDB.describeCollection self name).
Proof.
  intros self name. unfold TinyDB.describeCollection.
  apply readOnly_then_pure; [apply readOnly_collections|].
  intros listings w res w' H. unfold bind, lift in H.
  destruct (TinyDB.find _ _) as [e|[col|]]; now injection H as _ <-.
Qed.

(** X12: resolving a collection never touches the offline queue, in offline mode
    and with the network down either: not [ensureCollection], with its
    create, update and listing requests, and not the builder that calls
    it. *)
Theorem resolving_never_queues :
  (forall self input, keepsQueue (TinyDB.ensureCollection self input))
  /\ (forall builder,
        keepsQueue (CollectionBuilder.sync builder)
        /\ keepsQueue (CollectionBuilder.resolve builder)).
Proof.
  assert (Hensure : forall db input, keepsQueue (TinyDB.ensureCollection db input)).
  { intros db input. unfold TinyDB.ensureCollection. apply keepsQueue_try_catch.
    - unfold TinyDB.tryCreate. apply keepsQueue_bind.
      + apply requestInternal_closed. auto.
      + intro a. apply pure_keepsQueue, pure_lift.
    - intro e. unfold TinyDB.onCreateFailure.
      destruct (TinyDB.isConflict e); [|apply pure_keepsQueue, pure_throw].
      destruct (TinyDB.truthyString _).
      + destruct (encodeURIComponent _); [|apply pure_keepsQueue, pure_throw].
        apply keepsQueue_bind.
        * apply requestInternal_closed. auto.
        * intro a. apply pure_keepsQueue, pure_lift.
      + apply keepsQueue_bind; [apply readOnly_describeCollection|].
        intro a. destruct (truthy a); apply pure_keepsQueue;
          [apply pure_ret|apply pure_throw]. }
  split; [apply Hensure|].
  intros builder.
  assert (Hsync : keepsQueue (CollectionBuilder.sync builder)).
  { unfold CollectionBuilder.sync. apply keepsQueue_bind; [apply Hensure|].
    intro a. apply pure_keepsQueue, pure_ret. }
  split; [exact Hsync|].
  unfold CollectionBuilder.resolve. destruct (_ || _); [exact Hsync|].
  apply keepsQueue_bind; [apply Hensure|]. intro a. apply pure_keepsQueue, pure_ret.
Qed.

Lemma ensureCollection_by_schemaStr :
  forall self n schema schema' pk,
  stringifySchema schema = stringifySchema schema' ->
  forall w,
  TinyDB.ensureCollection self
    {| EnsureCollectionInput.name := n;
       EnsureCollectionInput.schema := schema;
       EnsureCollectionInput.primaryKey := pk |} w
  = TinyDB.ensureCollection self
      {| EnsureCollectionInput.name := n;
         EnsureCollectionInput.schema := schema';
         EnsureCollectionInput.primaryKey := pk |} w.
Proof.
  intros self n schema schema' pk H w.
  unfold TinyDB.ensureCollection, TinyDB.tryCreate, TinyDB.createRequest,
    TinyDB.createBody, TinyDB.onCreateFailure.
  cbn [EnsureCollectionInput.name EnsureCollectionInput.schema
       EnsureCollectionInput.primaryKey].
  now rewrite H.
Qed.

(** X13: awaiting a builder does what [sync] does, for every builder: with a
    schema or a primary key it is [sync], and without them the create
    request that [resolve] makes on its own is the one [sync] would make. *)
Theorem resolve_is_sync :
  forall builder w,
  CollectionBuilder.resolve builder w = CollectionBuilder.sync builder w.
Proof.
  intros builder w. unfold CollectionBuilder.resolve.
  destruct (truthy (Fields.CollectionBuilder.schemaDef builder)) eqn:Hs;
    [reflexivity|].
  destruct (Fields.CollectionBuilder.pkConfig builder) as [pk|] eqn:Hpk;
    [reflexivity|].
  cbn [orb]. unfold CollectionBuilder.sync, bind. rewrite Hpk.
  assert (Hstr : stringifySchema JUndefined
                 = stringifySchema (Fields.CollectionBuilder.schemaDef builder)).
  { unfold stringifySchema. now rewrite Hs. }
  now rewrite (@ensureCollection_by_schemaStr (Fields.CollectionBuilder.client builder)
                 (Fields.CollectionBuilder.name builder) _ _ None Hstr w).
Qed.

(** X14: the create request of [ensureCollection] is answered with a success
    status: a body that is a JSON object (or any value but [null]) gives the
    decoded collection, after that one call; no body at all (a 204, or an
    empty body) makes [ensureCollection] reject with a [TypeError], because
    there is nothing to decode. *)
Theorem ensureCollection_created :
  forall self input w u response,
  buildURL (endpoint self) (js "/api/collections") None = Some u ->
  fetchImpl self (calls w) u (TinyDB.requestInit self (TinyDB.createRequest self input))
    = inr response ->
  ok response = true ->
  let after := sent w u (TinyDB.requestInit self (TinyDB.createRequest self input)) in
  (forall payload,
     jsonParser response = inr payload -> nullish payload = false ->
     exists col,
       parseCollection payload = inr col
       /\ TinyDB.ensureCollection self input w = (inr col, after))
  /\ (status response = 204%Z \/ text response = [] ->
      TinyDB.ensureCollection self input w
      = (inl (cannotRead (js "schema_json")), after)).
Proof.
  intros self input w u response Hu Hfetch Hok after.
  assert (Hrun : forall payload,
    jsonParser response = inr payload ->
    TinyDB.requestInternal self (TinyDB.createRequest self input) w = (inr payload, after)).
  { intros payload Hp.
    rewrite (requestInternal_run self (TinyDB.createRequest self input) w Hu). cbv zeta.
    unfold exchange. rewrite Hfetch, Hok. cbn [negb].
    change (TinyDB.requestParser (TinyDB.createRequest self input)) with jsonParser.
    now rewrite Hp. }
  split.
  - intros payload Hp Hn.
    unfold TinyDB.ensureCollection, try_catch, TinyDB.tryCreate, bind, lift.
    rewrite (Hrun payload Hp). unfold parseCollection. rewrite Hn.
    eexists. split; reflexivity.
  - intro H.
    assert (Hp : jsonParser response = inr JUndefined).
    { unfold jsonParser. destruct H as [ -> | -> ]; [reflexivity|].
      now destruct (status response =? 204)%Z. }
    unfold TinyDB.ensureCollection, try_catch, TinyDB.tryCreate, bind, lift.
    rewrite (Hrun JUndefined Hp). reflexivity.
Qed.

(** X15: the lookup of [describeCollection] is complete: when the listing is made
    of collections with a name and one of them has the name that is asked
    for, up to the case of its letters, a collection with such a name is
    found, and the not-found error is not thrown. *)
Theorem describeCollection_finds :
  forall self name w listings w',
  TinyDB.collections self w = (inr listings, w') ->
  Forall (fun c => exists n, get c (js "name") = JStr n) listings ->
  (exists c n, In c listings /\ get c (js "name") = JStr n
               /\ toLowerCase n = toLowerCase name) ->
  exists col n,
    TinyDB.describeCollection self name w = (inr col, w')
    /\ In col listings
    /\ get col (js "name") = JStr n
    /\ toLowerCase n = toLowerCase name.
Proof.
  intros self name w listings w' Hc Hnames Hsome.
  rewrite (describeCollection_run self name w Hc).
  assert (Hfind : exists col n,
    TinyDB.find (toLowerCase name) listings = inr (Some col)
    /\ In col listings /\ get col (js "name") = JStr n
    /\ toLowerCase n = toLowerCase name).
  { clear Hc. induction listings as [|c listings IH].
    - destruct Hsome as (c & n & [] & _).
    - inversion Hnames as [|? ? (m & Hm) Hrest]; subst.
      cbn [TinyDB.find]. rewrite Hm.
      destruct (JSString.eqb (toLowerCase m) (toLowerCase name)) eqn:E.
      + exists c, m. apply eqb_eq in E. repeat split; auto. now left.
      + destruct IH as (col & n & Hf & Hin & Hn & Hl); [exact Hrest| |].
        * destruct Hsome as (c' & n' & [<-|Hin] & Hn' & Hl').
          -- rewrite Hm in Hn'. injection Hn' as <-.
             apply eqb_eq in Hl'. congruence.
          -- eauto.
        * exists col, n. repeat split; auto. now right. }
  destruct Hfind as (col & n & Hf & Hin & Hn & Hl).
  exists col, n. rewrite Hf. repeat split; assumption.
Qed.

End QueueKept.

(** ** Collection facade, continued *)

Section FacadeMore.
Context {R : Runtime}.
Import Fields.CollectionClient.

Lemma readOnly_requestOn :
  forall self path options,
  (forall p, RequestOptions.allowOfflineQueue (options p) = false) ->
  readOnly (CollectionClient.requestOn self path options).
Proof.
  intros self [p|] options H; unfold CollectionClient.requestOn.
  - now apply readOnly_request.
  - apply readOnly_pure, pure_throw.
Qed.

(** X16: the operations that read never touch the offline queue and call the
    transport once at most, whatever the mode of the client and the state of
    the network: [list], [get], [getByPk], [sync], [schemaJson], [refresh],
    [me], [collections], [describeCollection], and [query] too, which is a
    POST but does not ask for queuing. *)
Theorem reads_never_queue :
  forall self,
  (forall options, readOnly (CollectionClient.list self options))
  /\ (forall id pk, readOnly (CollectionClient.get self id pk))
  /\ (forall key, readOnly (CollectionClient.getByPk self key))
  /\ (forall request, readOnly (CollectionClient.query self request))
  /\ (forall params, readOnly (CollectionClient.sync self params))
  /\ readOnly (CollectionClient.schemaJson self)
  /\ readOnly (CollectionClient.refresh self)
  /\ readOnly (TinyDB.me (client self))
  /\ readOnly (TinyDB.collections (client self))
  /\ (forall name, readOnly (TinyDB.describeCollection (client self) name)).
Proof.
  intro self.
  assert (Hread : forall path query (f : value -> result DocumentRecord),
    readOnly (payload <- CollectionClient.requestOn self path
                           (CollectionClient.readRequest query) ;;
              lift (f payload))).
  { intros path query f.
    apply readOnly_then_pure; [now apply readOnly_requestOn|]. intro a. apply pure_lift. }
  assert (HbyPk : forall key, readOnly (CollectionClient.getByPk self key)).
  { intro key. apply Hread. }
  split; [|split; [|split; [|split; [|split; [|split; [|split; [|split; [|split]]]]]]]].
  - intro options. unfold CollectionClient.list.
    destruct (CollectionClient.listQuery options); [apply readOnly_pure, pure_throw|].
    apply readOnly_then_pure; [now apply readOnly_requestOn|]. intro a. apply pure_lift.
  - intros id pk. unfold CollectionClient.get. destruct pk; [apply HbyPk|apply Hread].
  - exact HbyPk.
  - intro request. unfold CollectionClient.query.
    apply readOnly_then_pure; [now apply readOnly_requestOn|]. intro a. apply pure_lift.
  - intro params. unfold CollectionClient.sync.
    destruct (CollectionClient.syncQuery params); [apply readOnly_pure, pure_throw|].
    apply readOnly_then_pure; [now apply readOnly_requestOn|]. intro a. apply pure_lift.
  - unfold CollectionClient.schemaJson.
    apply readOnly_then_pure; [now apply readOnly_requestOn|].
    intro a. destruct (nullish a); [apply pure_throw|apply pure_ret].
  - unfold CollectionClient.refresh.
    apply readOnly_then_pure; [apply readOnly_describeCollection|].
    intro a. apply pure_ret.
  - now apply readOnly_request.
  - apply readOnly_collections.
  - intro name. apply readOnly_describeCollection.
Qed.

Lemma queuedAs_bind :
  forall (A B : Type) verb u (m : M A) (k : A -> M B) w,
  queuedAs verb u m w -> queuedAs verb u (bind m k) w.
Proof.
  intros A B verb u m k w (queued & Hrun & Hu & Hv).
  exists queued. unfold bind. rewrite Hrun. now repeat split.
Qed.

Lemma requestOn_offline :
  forall self path p options w u e,
  Fields.TinyDB.offlineMode (client self) = true ->
  (forall u i, Fields.TinyDB.fetchImpl (client self) (calls w) u i = inl e) ->
  isNetworkError e = true ->
  path = Some p ->
  RequestOptions.allowOfflineQueue (options p) = true ->
  JSString.eqb (RequestOptions.method (options p)) (js "GET") = false ->
  buildURL (Fields.TinyDB.endpoint (client self)) (RequestOptions.path (options p))
           (RequestOptions.query (options p)) = Some u ->
  queuedAs (RequestOptions.method (options p)) u
           (CollectionClient.requestOn self path options) w.
Proof.
  intros self path p options w u e Hoff Hdown Hnet -> Hallow Hget Hu.
  unfold CollectionClient.requestOn.
  eapply requestInternal_offline; eauto.
Qed.

(** X17: in offline mode with the network down, every operation that writes one
    document or one batch rejects as queued, with its own method: [update]
    is a PUT, [patch] a PATCH, [delete] and [purge] a DELETE, [create] a
    POST, to the documents of the collection or to its bulk endpoint. *)
Theorem writes_are_queued_offline :
  forall self w e,
  Fields.TinyDB.offlineMode (client self) = true ->
  (forall u i, Fields.TinyDB.fetchImpl (client self) (calls w) u i = inl e) ->
  isNetworkError e = true ->
  let base := Fields.TinyDB.endpoint (client self) in
  (forall id doc path u,
     CollectionClient.documentPath self id [] = Some path ->
     buildURL base path None = Some u ->
     queuedAs (js "PUT") u (CollectionClient.update self id doc) w
     /\ queuedAs (js "PATCH") u (CollectionClient.patch self id doc) w
     /\ queuedAs (js "DELETE") u (CollectionClient.delete self (inl id)) w)
  /\ (forall id path u,
        CollectionClient.documentPath self id (js "/purge") = Some path ->
        buildURL base path (Some [(js "confirm", Some (js "true"))]) = Some u ->
        queuedAs (js "DELETE") u (CollectionClient.purge self (inl id)) w)
  /\ (forall doc path u,
        isArray doc = false ->
        CollectionClient.documentsPath self [] = Some path ->
        buildURL base path None = Some u ->
        queuedAs (js "POST") u (CollectionClient.create self doc) w)
  /\ (forall doc docs props path u,
        CollectionClient.documentsPath self (js "/bulk") = Some path ->
        buildURL base path None = Some u ->
        queuedAs (js "POST") u (CollectionClient.create self (JArr (doc :: docs) props)) w).
Proof.
  intros self w e Hoff Hdown Hnet base.
  assert (Hreq : forall options u,
    RequestOptions.allowOfflineQueue options = true ->
    JSString.eqb (RequestOptions.method options) (js "GET") = false ->
    buildURL base (RequestOptions.path options) (RequestOptions.query options) = Some u ->
    queuedAs (RequestOptions.method options) u
             (TinyDB.requestInternal (client self) options) w).
  { intros options u Hallow Hget Hu.
    eapply requestInternal_offline; eauto. }
  split; [|split; [|split]].
  - intros id doc path u Hpath Hu. split; [|split].
    + unfold CollectionClient.update, CollectionClient.requestOn. rewrite Hpath.
      apply queuedAs_bind.
      now apply (Hreq (CollectionClient.writeRequest (js "PUT") doc path) u).
    + unfold CollectionClient.patch, CollectionClient.requestOn. rewrite Hpath.
      apply queuedAs_bind.
      now apply (Hreq (CollectionClient.writeRequest (js "PATCH") doc path) u).
    + cbn [CollectionClient.delete]. unfold CollectionClient.deleteOne. rewrite Hpath.
      apply queuedAs_bind.
      now apply (Hreq (CollectionClient.deleteRequest path) u).
  - intros id path u Hpath Hu.
    cbn [CollectionClient.purge]. unfold CollectionClient.purgeOne. rewrite Hpath.
    apply queuedAs_bind.
    now apply (Hreq (CollectionClient.purgeRequest path) u).
  - intros doc path u Hdoc Hpath Hu.
    assert (Hcreate : CollectionClient.create self doc
      = (payload <- TinyDB.requestInternal (client self)
                      (CollectionClient.createRequest path doc) ;;
         record <- lift (parseDocument payload) ;;
         ret (CollectionClient.Document record))).
    { unfold CollectionClient.create. rewrite Hpath. now destruct doc. }
    rewrite Hcreate. apply queuedAs_bind.
    now apply (Hreq (CollectionClient.createRequest path doc) u).
  - intros doc docs props path u Hpath Hu.
    cbn [CollectionClient.create]. rewrite Hpath. apply queuedAs_bind.
    now apply (Hreq (CollectionClient.createRequest path (JArr (doc :: docs) props)) u).
Qed.

(** X18: in offline mode with the network down, a batch delete or purge queues
    the request of its first identifier and stops there: the identifiers
    behind it are neither sent nor queued. *)
Theorem batch_offline_queues_first :
  forall self w e id rest,
  Fields.TinyDB.offlineMode (client self) = true ->
  (forall u i, Fields.TinyDB.fetchImpl (client self) (calls w) u i = inl e) ->
  isNetworkError e = true ->
  let base := Fields.TinyDB.endpoint (client self) in
  (forall path u,
     CollectionClient.documentPath self id [] = Some path ->
     buildURL base path None = Some u ->
     queuedAs (js "DELETE") u (CollectionClient.delete self (inr (id :: rest))) w)
  /\ (forall path u,
        CollectionClient.documentPath self id (js "/purge") = Some path ->
        buildURL base path (Some [(js "confirm", Some (js "true"))]) = Some u ->
        queuedAs (js "DELETE") u (CollectionClient.purge self (inr (id :: rest))) w).
Proof.
  intros self w e id rest Hoff Hdown Hnet base. split.
  - intros path u Hpath Hu.
    cbn [CollectionClient.delete forEach]. apply queuedAs_bind.
    unfold CollectionClient.deleteOne. rewrite Hpath. apply queuedAs_bind.
    apply (requestInternal_offline (client self) (CollectionClient.deleteRequest path) w
             (u := u) (e := e)); auto.
  - intros path u Hpath Hu.
    cbn [CollectionClient.purge forEach]. apply queuedAs_bind.
    unfold CollectionClient.purgeOne. rewrite Hpath. apply queuedAs_bind.
    apply (requestInternal_offline (client self) (CollectionClient.purgeRequest path) w
             (u := u) (e := e)); auto.
Qed.

Lemma mapElements_all :
  forall (A : Type) (f : value -> result A) elems,
  Forall (fun x => exists y, f x = inr y) elems ->
  exists ys,
    TinyDB.mapElements f elems = inr ys /\ Forall2 (fun x y => f x = inr y) elems ys.
Proof.
  intros A f elems H. induction H as [|x elems (y & Hy) _ (ys & Hys & Hall)].
  - exists []. split; [reflexivity|constructor].
  - exists (y :: ys). cbn. rewrite Hy, Hys. split; [reflexivity|now constructor].
Qed.

(** X19: the page that [list] and [query] decode from a response: the documents
    of [items], each decoded by [parseDocument], as many and in the same
    order; no [items] gives the empty list, no [pagination] the empty
    object; a response with no body is the [TypeError] of reading [items]
    of it, whose message names [undefined] or [null] as the response is. *)
Theorem decodePage_in_order :
  forall response,
  (nullish response = true ->
   CollectionClient.decodePage response = inl (cannotReadOf response (js "items")))
  /\ CollectionClient.decodePage JUndefined
     = inl (TypeError (js "Cannot read properties of undefined (reading 'items')"))
  /\ CollectionClient.decodePage JNull
     = inl (TypeError (js "Cannot read properties of null (reading 'items')"))
  /\ (nullish response = false -> nullish (get response (js "items")) = true ->
      CollectionClient.decodePage response
      = inr {| ListResult.items := [];
               ListResult.pagination := coalesce (get response (js "pagination")) (JObj []) |})
  /\ (forall elems props,
        nullish response = false ->
        get response (js "items") = JArr elems props ->
        Forall (fun payload => nullish payload = false) elems ->
        exists records,
          CollectionClient.decodePage response
          = inr {| ListResult.items := records;
                   ListResult.pagination :=
                     coalesce (get response (js "pagination")) (JObj []) |}
          /\ Forall2 (fun payload record => parseDocument payload = inr record)
                     elems records
          /\ List.length records = List.length elems).
Proof.
  intro response. unfold CollectionClient.decodePage.
  split; [|split; [reflexivity|split; [reflexivity|split]]].
  - now intros ->.
  - intros -> Hitems. unfold coalesce at 1. now rewrite Hitems.
  - intros elems props -> Hitems Hall. rewrite Hitems. cbn [coalesce nullish TinyDB.arrayMap].
    destruct (mapElements_all parseDocument (elems := elems)) as (records & Hmap & Hrec).
    { eapply Forall_impl; [|exact Hall]. intros payload Hp. cbn beta in Hp.
      unfold parseDocument. rewrite Hp. eauto. }
    exists records. rewrite Hmap. split; [reflexivity|]. split; [exact Hrec|].
    symmetry. eapply Forall2_length, Hrec.
Qed.

Lemma eqb_app_same :
  forall a x y : jsstring, JSString.eqb (a ++ x) (a ++ y) = JSString.eqb x y.
Proof.
  induction a as [|c a IH]; intros x y; [reflexivity|].
  cbn. now rewrite N.eqb_refl, IH.
Qed.

Lemma eqb_neq : forall a b : jsstring, a <> b -> JSString.eqb a b = false.
Proof.
  intros a b H. destruct (JSString.eqb a b) eqn:E; [|reflexivity].
  apply eqb_eq in E. contradiction.
Qed.

Lemma setDefined_spec :
  forall k v query query',
  CollectionClient.setDefined k v query = inr query' ->
  lookup k query' = match v with
                    | JUndefined => lookup k query
                    | _ => Some (ToString v)
                    end
  /\ forall k', JSString.eqb k k' = false -> lookup k' query' = lookup k' query.
Proof.
  intros k v query query' H. unfold CollectionClient.setDefined in H.
  destruct v; [injection H as <-; now split| | | | | |];
    unfold CollectionClient.toQueryValue in H;
    (destruct (ToString _) as [t|]; [|discriminate]);
    injection H as <-;
    (split; [apply lookup_assign_same|intros k' Hk; now apply lookup_assign_other]).
Qed.

Lemma setFilters_other :
  forall entries query query' k,
  CollectionClient.setFilters entries query = inr query' ->
  (forall key, In key (List.map fst entries) -> JSString.eqb (js "f." ++ key) k = false) ->
  lookup k query' = lookup k query.
Proof.
  induction entries as [|[key v] entries IH]; intros query query' k H Hk.
  - now injection H as <-.
  - cbn [CollectionClient.setFilters] in H.
    destruct (CollectionClient.toQueryValue v) as [e|t]; [discriminate|].
    rewrite (IH _ _ k H).
    + apply lookup_assign_other. apply Hk. now left.
    + intros key' Hin. apply Hk. now right.
Qed.

Lemma setFilters_entry :
  forall entries query query' key v,
  CollectionClient.setFilters entries query = inr query' ->
  NoDup (List.map fst entries) ->
  In (key, v) entries ->
  exists t, CollectionClient.toQueryValue v = inr t
            /\ lookup (js "f." ++ key) query' = Some t.
Proof.
  induction entries as [|[key0 v0] entries IH]; intros query query' key v H Hnd Hin.
  - destruct Hin.
  - cbn [CollectionClient.setFilters] in H. cbn in Hnd.
    inversion Hnd as [|? ? Hnotin Hnd']; subst.
    destruct (CollectionClient.toQueryValue v0) as [e|t] eqn:Ht; [discriminate|].
    destruct Hin as [Heq|Hin].
    + injection Heq as <- <-. exists t. split; [exact Ht|].
      rewrite (@setFilters_other _ _ _ (js "f." ++ key0) H).
      * apply lookup_assign_same.
      * intros key' Hin'. rewrite eqb_app_same. apply eqb_neq.
        intros ->. contradiction.
    + now apply (IH _ _ _ _ H Hnd').
Qed.

(** X20: the query of [list]: [limit] and [offset] are sent when they are given,
    [include_deleted] is sent as [true] or not at all, [select] is the
    comma-joined list when it is not empty; every filter is sent under its
    key with the prefix [f.], and no filter can take the place of one of the
    four parameters. *)
Theorem listQuery_parameters :
  forall options query,
  CollectionClient.listQuery options = inr query ->
  lookup (js "limit") query
    = match ListOptions.limit options with
      | JUndefined => None
      | v => Some (ToString v)
      end
  /\ lookup (js "offset") query
      = match ListOptions.offset options with
        | JUndefined => None
        | v => Some (ToString v)
        end
  /\ lookup (js "include_deleted") query
      = (if truthy (ListOptions.includeDeleted options) then Some (Some (js "true")) else None)
  /\ lookup (js "select") query
      = match ListOptions.select options with
        | Some (x :: rest) => Some (Some (CollectionClient.join (js ",") (x :: rest)))
        | _ => None
        end
  /\ (forall entries key v,
        ListOptions.filters options = Some entries ->
        NoDup (List.map fst entries) ->
        In (key, v) entries ->
        exists t, CollectionClient.toQueryValue v = inr t
                  /\ lookup (js "f." ++ key) query = Some t).
Proof.
  intros options query H. unfold CollectionClient.listQuery in H.
  destruct (CollectionClient.setDefined (js "limit") _ []) as [e|q1] eqn:H1;
    [discriminate|].
  destruct (CollectionClient.setDefined (js "offset") _ q1) as [e|q2] eqn:H2;
    [discriminate|].
  destruct (@setDefined_spec _ _ _ _ H1) as (Hl1 & Ho1).
  destruct (@setDefined_spec _ _ _ _ H2) as (Hl2 & Ho2).
  set (q3 := if truthy (ListOptions.includeDeleted options)
             then assign (js "include_deleted") (Some (js "true")) q2 else q2) in H.
  set (q4 := match ListOptions.select options with
             | Some (x :: rest) =>
                 assign (js "select") (Some (CollectionClient.join (js ",") (x :: rest))) q3
             | _ => q3
             end) in H.
  assert (Hkept : forall k,
    (forall key, JSString.eqb (js "f." ++ key) k = false) -> lookup k query = lookup k q4).
  { intros k Hk. destruct (ListOptions.filters options) as [entries|].
    - apply (@setFilters_other _ _ _ k H). intros key _. apply Hk.
    - now injection H as <-. }
  assert (H3 : forall k, JSString.eqb (js "include_deleted") k = false ->
                         lookup k q3 = lookup k q2).
  { intros k Hk. unfold q3. destruct (truthy _); [|reflexivity].
    now apply lookup_assign_other. }
  assert (H4 : forall k, JSString.eqb (js "select") k = false ->
                         lookup k q4 = lookup k q3).
  { intros k Hk. unfold q4. destruct (ListOptions.select options) as [[|x rest]|];
      try reflexivity. now apply lookup_assign_other. }
  split; [|split; [|split; [|split]]].
  - rewrite Hkept by reflexivity. rewrite H4, H3, Ho2 by reflexivity.
    rewrite Hl1. now destruct (ListOptions.limit options).
  - rewrite Hkept by reflexivity. rewrite H4, H3 by reflexivity.
    rewrite Hl2, Ho1 by reflexivity. now destruct (ListOptions.offset options).
  - rewrite Hkept by reflexivity. rewrite H4 by reflexivity. unfold q3.
    destruct (truthy _); [apply lookup_assign_same|].
    now rewrite Ho2, Ho1 by reflexivity.
  - rewrite Hkept by reflexivity. unfold q4.
    destruct (ListOptions.select options) as [[|x rest]|];
      try apply lookup_assign_same;
      rewrite H3, Ho2, Ho1 by reflexivity; reflexivity.
  - intros entries key v Hf Hnd Hin. rewrite Hf in H.
    now apply (@setFilters_entry _ _ _ _ _ H Hnd Hin).
Qed.

(** X21: the query of [sync]: [include_deleted] is sent as [true] or as [false]
    whenever the parameter is given, [cursor] is sent unless it is empty,
    [since] is the string, or the ISO form of the date; a date that has no
    ISO form makes [sync] reject before any call. *)
Theorem syncQuery_parameters :
  forall params,
  (forall query, CollectionClient.syncQuery params = inr query ->
     lookup (js "include_deleted") query
       = match SyncParams.includeDeleted params with
         | Some true => Some (Some (js "true"))
         | Some false => Some (Some (js "false"))
         | None => None
         end
     /\ lookup (js "cursor") query
         = match SyncParams.cursor params with
           | Some (c :: rest) => Some (Some (c :: rest))
           | _ => None
           end
     /\ lookup (js "since") query
         = match SyncParams.since params with
           | Some (SyncParams.Text (c :: rest)) => Some (Some (c :: rest))
           | Some (SyncParams.Date iso) => Some iso
           | _ => None
           end)
  /\ (forall self w,
        SyncParams.since params = Some (SyncParams.Date None) ->
        exists e, CollectionClient.sync self params w = (inl e, w)).
Proof.
  intro params. split.
  - intros query H. unfold CollectionClient.syncQuery in H.
    destruct (CollectionClient.setDefined (js "limit") _ []) as [e|q1] eqn:H1;
      [discriminate|].
    destruct (@setDefined_spec _ _ _ _ H1) as (_ & Ho1).
    assert (Hq1 : forall k, JSString.eqb (js "limit") k = false -> lookup k q1 = None).
    { intros k Hk. now rewrite Ho1. }
    destruct (SyncParams.cursor params) as [[|c rest]|];
      destruct (SyncParams.includeDeleted params) as [[|]|];
      destruct (SyncParams.since params) as [[[|c' rest']|[iso|]]|];
      cbn [TinyDB.nonempty] in H; try discriminate; injection H as <-;
      repeat split;
      repeat (first [ rewrite lookup_assign_same
                    | rewrite lookup_assign_other by reflexivity ]);
      rewrite ?Hq1 by reflexivity; reflexivity.
  - intros self w Hsince. unfold CollectionClient.sync, CollectionClient.syncQuery.
    rewrite Hsince.
    destruct (CollectionClient.setDefined (js "limit") _ []) as [e|q1];
      eexists; reflexivity.
Qed.

End FacadeMore.

(** * Examples *)

Section Examples.
Import Sample.

(** C1 does not hold of the code: in offline mode, a POST that allows
    queuing and is answered with HTTP 503 and a message that speaks of the
    network is taken for a network failure, appended to the offline queue,
    and the caller gets an [OfflineError] where the claim has a [TinyDBError]
    with the status. *)
Theorem http_error_taken_for_network_failure :
  ok unavailable = false
  /\ parseError unavailable
       = inr (TinyDBError (js "upstream network unreachable") 503 JUndefined
                (JObj [(js "message", JStr (js "upstream network unreachable"))]))
  /\ exists queued,
       TinyDB.requestInternal (client (always unavailable) true) createDocument emptyWorld
       = (inl (OfflineError (js "Request queued while offline") queued),
          {| offlineQueue := [queued];
             calls := [(documentsURL,
                        TinyDB.requestInit (client (always unavailable) true) createDocument)] |})
       /\ url queued = documentsURL.
Proof.
  split; [reflexivity|]. split; [reflexivity|].
  eexists. split.
  - apply (requestInternal_http_error_queued (client (always unavailable) true)
             createDocument emptyWorld (u := documentsURL) (response := unavailable)
             (error := TinyDBError (js "upstream network unreachable") 503 JUndefined
                         (JObj [(js "message", JStr (js "upstream network unreachable"))])));
      reflexivity.
  - reflexivity.
Qed.

Lemma requestInternal_queues_network_failure_witness :
  exists queued,
    TinyDB.requestInternal (client down true) createDocument emptyWorld
    = (inl (OfflineError (js "Request queued while offline") queued),
       {| offlineQueue := [queued];
          calls := [(documentsURL, TinyDB.requestInit (client down true) createDocument)] |})
    /\ url queued = documentsURL
    /\ method (init queued) = js "POST".
Proof.
  destruct (requestInternal_queues_network_failure (client down true) createDocument
              emptyWorld (u := documentsURL) (e := TypeError (js "Failed to fetch")))
    as (queued & Hrun & Hurl & Hmethod & _); try reflexivity.
  exists queued. repeat split; assumption.
Defined.

(** Two operations are queued and the first replay is answered with HTTP
    500: the flush rejects with that error after one call, and both
    operations stay queued in their order. *)
Example flush_stops_at_first_failure :
  let first := mkQueuedOperation documentsURL
                 (TinyDB.requestInit (client (always serverError) true) createDocument)
                 jsonParser in
  let second := mkQueuedOperation (documentsURL ++ js "/d1")
                  {| method := js "DELETE"; headers := []; body := None |}
                  CollectionClient.ignoreResponse in
  TinyDB.flushOfflineQueue (client (always serverError) true)
    {| offlineQueue := [first; second]; calls := [] |}
  = Some (inl (TinyDBError (js "Internal Server Error") 500 JUndefined JUndefined),
          {| offlineQueue := [first; second]; calls := [request first] |}).
Proof. reflexivity. Qed.

(** The transport is down for the first call and back for the second: the
    create request is queued, and the flush that follows replays it, gets the
    answer and leaves the queue empty. *)
Example queued_then_flushed :
  let self := client (script [inl (TypeError (js "Failed to fetch"));
                              inr (okWith (js "{}"))]) true in
  let i := TinyDB.requestInit self createDocument in
  let queued := mkQueuedOperation documentsURL i jsonParser in
  TinyDB.requestInternal self createDocument emptyWorld
    = (inl (OfflineError (js "Request queued while offline") queued),
       {| offlineQueue := [queued]; calls := [(documentsURL, i)] |})
  /\ TinyDB.flushOfflineQueue self {| offlineQueue := [queued]; calls := [(documentsURL, i)] |}
     = Some (inr tt, {| offlineQueue := []; calls := [(documentsURL, i); (documentsURL, i)] |}).
Proof. split; reflexivity. Qed.

(** A data string that parses to an array is kept as that array, with the
    internal id assigned to it as a property. *)
Example parseDocument_array_data :
  exists r,
    parseDocument (JObj [(js "id", JStr (js "d1")); (js "data", JStr (js "[]"))]) = inr r
    /\ data r = JArr [] [(js "_doc_id", JStr (js "d1"))].
Proof. eexists. split; reflexivity. Qed.

(** The data string [true] parses to a boolean, and the decoded data is the
    empty object with the internal id: it has no [_raw] key. The data string
    [[]] parses to an array, and the decoded data is that array with the
    internal id: it is not a JSON object. *)
Lemma parseDocument_data_counterexample :
  (get booleanData (js "data") = JStr (js "true")
   /\ JSON_parse (js "true") = Some (JBool true)
   /\ (exists r, parseDocument booleanData = inr r
                 /\ data r = JObj [(js "_doc_id", JStr (js "d1"))])
   /\ ~ (exists r, parseDocument booleanData = inr r
                   /\ get (data r) (js "_raw") = JStr (js "true")))
  /\ (get arrayData (js "data") = JStr (js "[]")
      /\ JSON_parse (js "[]") = Some (JArr [] [])
      /\ (exists r, parseDocument arrayData = inr r
                    /\ data r = JArr [] [(js "_doc_id", JStr (js "d1"))])
      /\ ~ (exists r props, parseDocument arrayData = inr r /\ data r = JObj props)).
Proof.
  split.
  - split; [reflexivity|]. split; [reflexivity|]. split.
    + eexists. split; reflexivity.
    + intros (r & Hr & Hraw). cbv in Hr. injection Hr as <-. discriminate.
  - split; [reflexivity|]. split; [reflexivity|]. split.
    + eexists. split; reflexivity.
    + intros (r & props & Hr & Hdata). cbv in Hr. injection Hr as <-. discriminate.
Qed.

Lemma parseDocument_data_object_witness :
  nullish booleanData = false
  /\ exists r, parseDocument booleanData = inr r
               /\ (exists props, data r = JObj props)
               /\ data r = JObj [(js "_doc_id", JStr (js "d1"))].
Proof.
  split; [reflexivity|].
  destruct (parseDocument_data_object booleanData eq_refl)
    as (r & Hr & _ & _ & Hobject & _ & _ & Hprimitive).
  exists r. split; [exact Hr|]. split.
  - apply Hobject. intros elems props _. vm_compute. discriminate.
  - apply (Hprimitive (js "true") (JBool true)); try reflexivity. discriminate.
Defined.

Lemma parseDocument_doc_id_witness :
  nullish keyedData = false
  /\ exists r, parseDocument keyedData = inr r
               /\ get (data r) (js "_doc_id") = JStr (js "k7").
Proof.
  split; [reflexivity|].
  destruct (parseDocument_doc_id keyedData (pid := js "d1"))
    as (r & Hr & _ & Hkeep & _); try reflexivity; try discriminate.
  exists r. split; [exact Hr|].
  apply Hkeep; [discriminate|reflexivity].
Defined.

Lemma parseDocument_version_witness :
  nullish nanVersion = false
  /\ exists r, parseDocument nanVersion = inr r /\ version r = one.
Proof.
  split; [reflexivity|].
  destruct (parseDocument_version nanVersion eq_refl) as (r & Hr & _ & Hdefault).
  exists r. split; [exact Hr|].
  apply Hdefault. intros x Hx. cbv in Hx. injection Hx as <-. reflexivity.
Defined.


(** Three documents are deleted, then purged, and the second request is
    answered with HTTP 500: the batch rejects with that error after two
    calls, and nothing is called for the third. *)
Lemma delete_purge_in_order_witness :
  let self := users (script [inr noContent; inr serverError; inr noContent]) false in
  let failure := TinyDBError (js "Internal Server Error") 500 JUndefined JUndefined in
  (exists w2,
     CollectionClient.delete self (inr [js "a"; js "b"; js "c"]) emptyWorld = (inl failure, w2)
     /\ List.map fst (calls w2)
        = [js "https://db.example/api/collections/users/documents/a";
           js "https://db.example/api/collections/users/documents/b"])
  /\ (exists w2,
        CollectionClient.purge self (inr [js "a"; js "b"; js "c"]) emptyWorld = (inl failure, w2)
        /\ List.map fst (calls w2)
           = [js "https://db.example/api/collections/users/documents/a/purge?confirm=true";
              js "https://db.example/api/collections/users/documents/b/purge?confirm=true"]).
Proof.
  intros self failure.
  destruct (delete_purge_in_order self [js "a"] (js "b") [js "c"] emptyWorld
              (snd (CollectionClient.delete self (inr [js "a"]) emptyWorld))
              failure
              (snd (CollectionClient.delete self (inr [js "a"; js "b"]) emptyWorld)))
    as (Hdelete & _ & _).
  destruct (delete_purge_in_order self [js "a"] (js "b") [js "c"] emptyWorld
              (snd (CollectionClient.purge self (inr [js "a"]) emptyWorld))
              failure
              (snd (CollectionClient.purge self (inr [js "a"; js "b"]) emptyWorld)))
    as (_ & Hpurge & _).
  split.
  - destruct Hdelete as (Hrun & _); [reflexivity|reflexivity|].
    eexists. split; [exact Hrun|reflexivity].
  - destruct Hpurge as (Hrun & _); [reflexivity|reflexivity|].
    eexists. split; [exact Hrun|reflexivity].
Defined.

(** A bulk create of one document makes one call, to the bulk endpoint. *)
Lemma create_batch_calls_witness :
  let self := users (always (okWith (js "{}"))) false in
  exists res w',
    CollectionClient.create self (JArr [JObj [(js "name", JStr (js "Sambo"))]] []) emptyWorld
      = (res, w')
    /\ List.map fst (calls w')
       = [js "https://db.example/api/collections/users/documents/bulk"].
Proof.
  intro self.
  destruct (create_batch_calls self [] emptyWorld) as (_ & Hbatch & _).
  destruct (Hbatch (JObj [(js "name", JStr (js "Sambo"))]) [] (js "users")
              (js "https://db.example/api/collections/users/documents/bulk")
              eq_refl eq_refl)
    as (res & w' & i & Hrun & Hcalls & _).
  exists res, w'. split; [exact Hrun|]. now rewrite Hcalls.
Defined.


End Examples.

(** * Examples, continued *)

Section MoreExamples.
Import Sample.

Lemma parseDocument_keeps_identified_data_witness :
  exists r, parseDocument keyedData = inr r
            /\ data r = JObj [(js "_doc_id", JStr (js "k7"))].
Proof.
  destruct (parseDocument_keeps_identified_data keyedData
              (s := js "{" ++ quoted "_doc_id" ++ js ":" ++ quoted "k7" ++ js "}")
              (d := JObj [(js "_doc_id", JStr (js "k7"))]) (docId := js "k7"))
    as (r & Hr & Hd); [first [reflexivity | discriminate] .. | ].
  exists r. now split.
Defined.

Lemma isNetworkError_by_message_witness :
  isNetworkError (Error (js "NETWORK is down")) = true
  /\ isNetworkError (TinyDBError (js "NETWORK is down") 502 JUndefined JUndefined) = true.
Proof.
  destruct (@isNetworkError_by_message (js "network") [] (js "NETWORK") (js " is down"))
    as (Herror & Htiny & _); [now left|reflexivity|].
  split; [exact Herror|apply Htiny].
Defined.

Lemma parseError_without_payload_witness :
  parseError serverError
  = inr (TinyDBError (js "Internal Server Error") 500 JUndefined JUndefined).
Proof.
  exact (parseError_without_payload serverError (or_introl eq_refl)).
Defined.

(** A GET is not queued, whatever it allows: in offline mode, on an HTTP 503
    whose message speaks of the network, the caller gets the protocol
    error. *)
Lemma requestInternal_not_queued_witness :
  TinyDB.requestInternal (client (always unavailable) true) readMe emptyWorld
  = (inl (TinyDBError (js "upstream network unreachable") 503 JUndefined
            (JObj [(js "message", JStr (js "upstream network unreachable"))])),
     {| offlineQueue := [];
        calls := [(js "https://db.example/api/me",
                   TinyDB.requestInit (client (always unavailable) true) readMe)] |}).
Proof.
  destruct (requestInternal_not_queued (client (always unavailable) true) readMe)
    as (_ & Hrun); [right; right; reflexivity|].
  rewrite (Hrun emptyWorld (js "https://db.example/api/me")); reflexivity.
Defined.

Lemma requestInternal_queue_growth_witness :
  exists queued,
    offlineQueue (snd (TinyDB.requestInternal (client down true) createDocument emptyWorld))
    = [queued]
    /\ url queued = documentsURL.
Proof.
  destruct (TinyDB.requestInternal (client down true) createDocument emptyWorld)
    as [res w'] eqn:Hrun.
  destruct (requestInternal_queue_growth (client down true) createDocument emptyWorld Hrun)
    as [Hsame|(queued & Hq & _ & Hcalls & _)].
  - exfalso. cbv in Hrun. injection Hrun as _ <-. discriminate.
  - exists queued. split; [exact Hq|].
    cbv in Hrun. injection Hrun as _ <-. cbn in Hq. now injection Hq as <-.
Defined.

Lemma requestInternal_success_body_witness :
  TinyDB.requestInternal (client (always noContent) false) createDocument emptyWorld
  = (inr JUndefined,
     sent emptyWorld documentsURL
          (TinyDB.requestInit (client (always noContent) false) createDocument)).
Proof.
  destruct (requestInternal_success_body (client (always noContent) false) createDocument
              emptyWorld (u := documentsURL) (response := noContent))
    as (Hempty & _); [reflexivity .. | ].
  apply Hempty. now left.
Defined.

Lemma queued_request_is_replayed_witness :
  let self := client (script [inl (TypeError (js "Failed to fetch"));
                              inr (okWith (js "{}"))]) true in
  let i := TinyDB.requestInit self createDocument in
  exists w1,
    snd (TinyDB.requestInternal self createDocument emptyWorld) = w1
    /\ TinyDB.flushOfflineQueue self w1
       = Some (inr tt, {| offlineQueue := []; calls := [(documentsURL, i); (documentsURL, i)] |}).
Proof.
  intros self i.
  destruct (queued_request_is_replayed self createDocument emptyWorld
              (u := documentsURL) (e := TypeError (js "Failed to fetch")))
    as (queued & w1 & Hrun & _ & Hok & _); [reflexivity .. | ].
  exists w1. split; [now rewrite Hrun|].
  apply (Hok (JObj [])). reflexivity.
Defined.

Lemma ensureCollection_created_witness :
  let self := client (always createdCollection) false in
  exists col w',
    TinyDB.ensureCollection self usersInput emptyWorld = (inr col, w')
    /\ get col (js "id") = JStr (js "c1").
Proof.
  intro self.
  destruct (ensureCollection_created self usersInput emptyWorld
              (u := js "https://db.example/api/collections")
              (response := createdCollection))
    as (Hcreated & _); [reflexivity .. | ].
  destruct (Hcreated (JObj [(js "id", JStr (js "c1"))])) as (col & Hcol & Hrun);
    try reflexivity.
  exists col. eexists. split; [exact Hrun|].
  cbv in Hcol. injection Hcol as <-. reflexivity.
Defined.

Lemma describeCollection_finds_witness :
  let self := client (always (okWith usersListing)) false in
  exists col w',
    TinyDB.describeCollection self (js "USERS") emptyWorld = (inr col, w')
    /\ get col (js "name") = JStr (js "Users").
Proof.
  intro self.
  set (users := JObj [(js "id", JStr (js "c1")); (js "name", JStr (js "Users"));
                      (js "schema", JUndefined)]).
  destruct (describeCollection_finds self (js "USERS") emptyWorld
              (listings := [users])
              (w' := sent emptyWorld (js "https://db.example/api/collections")
                          (TinyDB.requestInit self
                             {| RequestOptions.method := js "GET";
                                RequestOptions.path := js "/api/collections";
                                RequestOptions.query := None;
                                RequestOptions.body := RequestOptions.Value JUndefined;
                                RequestOptions.headers := None;
                                RequestOptions.parser := Some jsonParser;
                                RequestOptions.allowOfflineQueue := false |})))
    as (col & n & Hrun & Hin & Hname & _).
  - reflexivity.
  - constructor; [|constructor]. exists (js "Users"). reflexivity.
  - exists users, (js "Users"). repeat split. now left.
  - exists col. eexists. split; [exact Hrun|].
    destruct Hin as [<-|[]]. reflexivity.
Defined.

Lemma writes_are_queued_offline_witness :
  let self := users down true in
  queuedAs (js "PUT") (js "https://db.example/api/collections/users/documents/a")
           (CollectionClient.update self (js "a") (JObj [])) emptyWorld
  /\ queuedAs (js "POST") (js "https://db.example/api/collections/users/documents/bulk")
              (CollectionClient.create self (JArr [JObj []] [])) emptyWorld.
Proof.
  intro self.
  destruct (writes_are_queued_offline self emptyWorld (e := TypeError (js "Failed to fetch")))
    as (Hone & _ & _ & Hbulk); [reflexivity .. | ].
  split.
  - apply (Hone (js "a") (JObj []) (js "/api/collections/users/documents/a")); reflexivity.
  - apply (Hbulk (JObj []) [] [] (js "/api/collections/users/documents/bulk")); reflexivity.
Defined.

Lemma batch_offline_queues_first_witness :
  let self := users down true in
  queuedAs (js "DELETE") (js "https://db.example/api/collections/users/documents/a")
           (CollectionClient.delete self (inr [js "a"; js "b"; js "c"])) emptyWorld.
Proof.
  intro self.
  destruct (batch_offline_queues_first self emptyWorld (e := TypeError (js "Failed to fetch"))
              (js "a") [js "b"; js "c"])
    as (Hdelete & _); [reflexivity .. | ].
  apply (Hdelete (js "/api/collections/users/documents/a")); reflexivity.
Defined.

Lemma listQuery_parameters_witness :
  exists query,
    CollectionClient.listQuery adminsOnly = inr query
    /\ lookup (js "include_deleted") query = Some (Some (js "true"))
    /\ lookup (js "select") query = Some (Some (js "name,email"))
    /\ lookup (js "limit") query = None.
Proof.
  destruct (CollectionClient.listQuery adminsOnly) as [e|query] eqn:Hq;
    [cbv in Hq; discriminate|].
  exists query. split; [reflexivity|].
  destruct (listQuery_parameters adminsOnly Hq) as (Hlimit & _ & Hdeleted & Hselect & _).
  rewrite Hlimit, Hdeleted, Hselect. repeat split.
Defined.

Lemma syncQuery_parameters_witness :
  exists query,
    CollectionClient.syncQuery sinceNewYear = inr query
    /\ lookup (js "include_deleted") query = Some (Some (js "false"))
    /\ lookup (js "since") query = Some (Some (js "2024-01-01T00:00:00.000Z")).
Proof.
  destruct (CollectionClient.syncQuery sinceNewYear) as [e|query] eqn:Hq;
    [cbv in Hq; discriminate|].
  exists query. split; [reflexivity|].
  destruct (syncQuery_parameters sinceNewYear) as (Hquery & _).
  destruct (Hquery query Hq) as (Hdeleted & _ & Hsince).
  rewrite Hdeleted, Hsince. split; reflexivity.
Defined.

End MoreExamples.
